(** * BCI real-time dashboard: the sample pipeline of [bci_demo_ui.py]

    A shallow embedding of the data path of [BCIMainWindow] and of the
    post-processing done by [DataSimulatorThread.run]:

    - the per-channel ring buffers ([collections.deque] with [maxlen]),
      the parallel time axis and the time counter;
    - the slots [on_new_eeg_data], [on_new_inference], [toggle_connection]
      and [update_plots], written in a small monad that threads the
      window attributes, records the calls made on the Qt / pyqtgraph
      widgets and propagates Python exceptions;
    - the loop of [DataSimulatorThread.run], turn by turn: the instants of
      a batch ([np.linspace]), the rows of the array it emits, its clock,
      its class schedule and the clip-and-renormalise step that makes the
      probability vector.

    The slots all run on the main thread, one at a time, as the Qt event
    loop delivers a click, a queued signal of the data thread or a timeout
    of [update_timer]; a run of the program is a list of such events.  The
    data thread is kept as the object the window holds (its attributes and
    its [running] flag); the turns of its loop are a function of the
    thread and of its random draws, which are inputs of the model.

    Python [float] arithmetic is kept behind the interface [Scalar], with
    two instances: exact rationals ([Q], the arithmetic the code is
    written for) and IEEE binary64 ([PrimFloat.float], the arithmetic the
    interpreter runs).  The numpy routines that are not rational
    ([rfft], [hanning], [log10], [abs]) stay abstract in [Numpy], and
    [np.pi] and [np.sin] in [Trig].

    Left out: the construction and styling of the widgets, the unused
    [spectrogram_buffer], and the checks pyqtgraph makes on the data it is
    handed. *)

From Stdlib Require Import ZArith QArith Qround Lia Lqa.
From Stdlib Require Import Floats.PrimFloat Floats.SpecFloat Floats.FloatOps.
From Stdlib Require Import Uint63.
From stdpp Require Import base list strings.

Set Warnings "-inexact-float".

#[local] Open Scope nat_scope.

(** ** Exceptions and results *)

Inductive exn : Type := IndexError | ValueError | OverflowError.

Inductive res (A : Type) : Type :=
| Ok (a : A)
| Raise (e : exn).
Arguments Ok {A} _.
Arguments Raise {A} _.

(** ** Scalars *)

(** What the code asks of a Python float.  [lit] reads a decimal literal
    (given as the fraction it denotes); [to_int] is [int(x)], truncation
    towards zero, which raises on a NaN or an infinity. *)
Class Scalar (F : Type) : Type := {
  lit : Q -> F;
  add : F -> F -> F;
  mul : F -> F -> F;
  div : F -> F -> F;
  ltb : F -> F -> bool;
  leb : F -> F -> bool;
  isfinite : F -> bool;
  to_int : F -> res Z
}.

Module ExactScalar.

(** Exact arithmetic, results kept in lowest terms. *)
Definition qlit (q : Q) : Q := Qred q.
Definition qadd (a b : Q) : Q := Qred (a + b).
Definition qmul (a b : Q) : Q := Qred (a * b).
Definition qdiv (a b : Q) : Q := Qred (a / b).
Definition qltb (a b : Q) : bool := negb (Qle_bool b a).
Definition qleb (a b : Q) : bool := Qle_bool a b.
Definition qtrunc (a : Q) : res Z := Ok (Z.quot (Qnum a) (Zpos (Qden a))).

End ExactScalar.

#[export] Instance Q_scalar : Scalar Q := {
  lit := ExactScalar.qlit;
  add := ExactScalar.qadd;
  mul := ExactScalar.qmul;
  div := ExactScalar.qdiv;
  ltb := ExactScalar.qltb;
  leb := ExactScalar.qleb;
  isfinite := fun _ => true;
  to_int := ExactScalar.qtrunc
}.

Module Binary64.

Definition of_Z (z : Z) : float :=
    match z with
    | Z0 => PrimFloat.zero
    | Zpos _ => PrimFloat.of_uint63 (Uint63.of_Z z)
    | Zneg p => PrimFloat.opp (PrimFloat.of_uint63 (Uint63.of_Z (Zpos p)))
    end.

(** A literal [n/d] with [n] and [d] below [2^53] is the correctly
    rounded quotient, which is how the interpreter reads it. *)
Definition flit (q : Q) : float :=
    PrimFloat.div (of_Z (Qnum q)) (of_Z (Zpos (Qden q))).

Definition ffinite (x : float) : bool :=
    negb (PrimFloat.is_nan x || PrimFloat.is_infinity x).

Definition ftrunc (x : float) : res Z :=
  match Prim2SF x with
  | S754_zero _ => Ok 0%Z
  | S754_finite s m e =>
      let mag := if (0 <=? e)%Z
                 then (Zpos m * 2 ^ e)%Z
                 else Z.quot (Zpos m) (2 ^ (- e)) in
      Ok (if s then (- mag)%Z else mag)
  | S754_infinity _ => Raise OverflowError
  | S754_nan => Raise ValueError
  end.

End Binary64.

#[export] Instance float_scalar : Scalar float := {
  lit := Binary64.flit;
  add := PrimFloat.add;
  mul := PrimFloat.mul;
  div := PrimFloat.div;
  ltb := PrimFloat.ltb;
  leb := PrimFloat.leb;
  isfinite := Binary64.ffinite;
  to_int := Binary64.ftrunc
}.

(** ** [collections.deque(maxlen=n)] *)

Record deque (A : Type) : Type := Deque { maxlen : nat; items : list A }.
Arguments Deque {A} _ _.
Arguments maxlen {A} _.
Arguments items {A} _.

Definition deque_new {A : Type} (n : nat) : deque A := Deque n [].

(** [d.append(x)]: the element goes to the right end; a deque that
    exceeds its bound then drops its leftmost element. *)
Definition deque_append {A : Type} (d : deque A) (x : A) : deque A :=
  let l := items d ++ [x] in
  Deque (maxlen d) (if maxlen d <? length l then drop 1 l else l).

Definition deque_extend {A : Type} (d : deque A) (xs : list A) : deque A :=
  fold_left deque_append xs d.

(** ** Two-dimensional [numpy.ndarray] *)

Record ndarray (F : Type) : Type :=
  NdArray { nrows : nat; ncols : nat; item : nat -> nat -> F }.
Arguments NdArray {F} _ _ _.
Arguments nrows {F} _.
Arguments ncols {F} _.
Arguments item {F} _ _ _.

(** ** The widgets, seen through the calls made on them *)

Inductive Widget : Type :=
| ConnectBtn | ConnectionStatus | ModelLabel | SamplesLabel
| ClassIndicator | ConfidenceLabel | FpsLabel | PacketsLabel.

Inductive Curve : Type :=
| EegCurve (ch : nat)
| SpectrumCurve.

(** Label texts; the three formatted ones keep the formatted value. *)
Inductive Text (F : Type) : Type :=
| Lit (s : string)
| ConfidenceText (confidence : F)
| FpsText (fps : Z)
| PacketsText (packet_count : Z).
Arguments Lit {F} _.
Arguments ConfidenceText {F} _.
Arguments FpsText {F} _.
Arguments PacketsText {F} _.

(** Style sheets: the one-line ones verbatim, the block of the class
    indicator by its [color] entry. *)
Inductive Css : Type :=
| CssLine (s : string)
| IndicatorCss (color : string).

Inductive UiCall (F : Type) : Type :=
| SetText (w : Widget) (t : Text F)
| SetEnabled (w : Widget) (b : bool)
| SetStyleSheet (w : Widget) (css : Css)
| SetData (c : Curve) (x y : list F)
| SetOpts (height : list F)
| SingleShot (ms : Z) (call : UiCall F).
Arguments SetText {F} _ _.
Arguments SetEnabled {F} _ _.
Arguments SetStyleSheet {F} _ _.
Arguments SetData {F} _ _ _.
Arguments SetOpts {F} _.
Arguments SingleShot {F} _ _.

(** ** The objects *)

Record DataSimulatorThread (F : Type) : Type := SimThread {
  running : bool;
  sample_rate : Z;
  thread_n_channels : nat;
  time : F;
  inference_counter : Z;
  current_class : Z
}.
Arguments SimThread {F} _ _ _ _ _ _.
Arguments running {F} _.
Arguments sample_rate {F} _.
Arguments thread_n_channels {F} _.
Arguments time {F} _.
Arguments inference_counter {F} _.
Arguments current_class {F} _.

Record BCIMainWindow (F : Type) : Type := Window {
  n_channels : nat;
  buffer_size : nat;
  eeg_buffers : list (deque F);
  time_buffer : deque F;
  time_counter : F;
  inference_probs : list F;
  data_thread : option (DataSimulatorThread F);
  is_connected : bool
}.
Arguments Window {F} _ _ _ _ _ _ _ _.
Arguments n_channels {F} _.
Arguments buffer_size {F} _.
Arguments eeg_buffers {F} _.
Arguments time_buffer {F} _.
Arguments time_counter {F} _.
Arguments inference_probs {F} _.
Arguments data_thread {F} _.
Arguments is_connected {F} _.

Definition set_eeg_buffers {F : Type} (v : list (deque F)) (w : BCIMainWindow F) : BCIMainWindow F :=
  Window (n_channels w) (buffer_size w) v (time_buffer w) (time_counter w)
         (inference_probs w) (data_thread w) (is_connected w).

Definition set_time_buffer {F : Type} (v : deque F) (w : BCIMainWindow F) : BCIMainWindow F :=
  Window (n_channels w) (buffer_size w) (eeg_buffers w) v (time_counter w)
         (inference_probs w) (data_thread w) (is_connected w).

Definition set_time_counter {F : Type} (v : F) (w : BCIMainWindow F) : BCIMainWindow F :=
  Window (n_channels w) (buffer_size w) (eeg_buffers w) (time_buffer w) v
         (inference_probs w) (data_thread w) (is_connected w).

Definition set_inference_probs {F : Type} (v : list F) (w : BCIMainWindow F) : BCIMainWindow F :=
  Window (n_channels w) (buffer_size w) (eeg_buffers w) (time_buffer w) (time_counter w)
         v (data_thread w) (is_connected w).

Definition set_data_thread {F : Type} (v : option (DataSimulatorThread F)) (w : BCIMainWindow F) : BCIMainWindow F :=
  Window (n_channels w) (buffer_size w) (eeg_buffers w) (time_buffer w) (time_counter w)
         (inference_probs w) v (is_connected w).

Definition set_is_connected {F : Type} (v : bool) (w : BCIMainWindow F) : BCIMainWindow F :=
  Window (n_channels w) (buffer_size w) (eeg_buffers w) (time_buffer w) (time_counter w)
         (inference_probs w) (data_thread w) v.

(** ** The monad of a slot

    A slot reads and writes the attributes of the window, calls widgets
    and may raise; what it wrote before raising stays written. *)

Record Out (F A : Type) : Type :=
  MkOut { result : res A; window : BCIMainWindow F; calls : list (UiCall F) }.
Arguments MkOut {F A} _ _ _.
Arguments result {F A} _.
Arguments window {F A} _.
Arguments calls {F A} _.

Definition M (F A : Type) : Type := BCIMainWindow F -> Out F A.

Definition m_ret {F A : Type} (a : A) : M F A := fun w => MkOut (Ok a) w [].

Definition m_bind {F A B : Type} (m : M F A) (k : A -> M F B) : M F B :=
  fun w =>
    match m w with
    | MkOut (Ok a) w1 c1 =>
        match k a w1 with
        | MkOut r w2 c2 => MkOut r w2 (c1 ++ c2)
        end
    | MkOut (Raise e) w1 c1 => MkOut (Raise e) w1 c1
    end.

Declare Scope slot_scope.
Delimit Scope slot_scope with slot.
Notation "x <- m ;; k" := (m_bind m (fun x => k))
  (at level 100, m at next level, k at level 200, right associativity) : slot_scope.
Notation "m ;;; k" := (m_bind m (fun _ => k))
  (at level 100, k at level 200, right associativity) : slot_scope.
#[local] Open Scope slot_scope.

Definition raise {F A : Type} (e : exn) : M F A := fun w => MkOut (Raise e) w [].
Definition get {F : Type} : M F (BCIMainWindow F) := fun w => MkOut (Ok w) w [].
Definition modify {F : Type} (f : BCIMainWindow F -> BCIMainWindow F) : M F unit :=
  fun w => MkOut (Ok tt) (f w) [].
Definition ui {F : Type} (c : UiCall F) : M F unit := fun w => MkOut (Ok tt) w [c].

Definition of_res {F A : Type} (r : res A) : M F A :=
  match r with Ok a => m_ret a | Raise e => raise e end.

(** [for x in xs: body(x)] *)
Fixpoint for_each {F A : Type} (xs : list A) (body : A -> M F unit) : M F unit :=
  match xs with
  | [] => m_ret tt
  | x :: xs' => body x ;;; for_each xs' body
  end.

Definition range (n : nat) : list nat := seq 0 n.

(** [l[i]] on a Python list and [data[ch, i]] on an array, both with a
    non-negative index. *)
Definition list_getitem {A : Type} (l : list A) (i : nat) : res A :=
  match l !! i with Some x => Ok x | None => Raise IndexError end.

Definition getitem {F : Type} (data : ndarray F) (ch i : nat) : res F :=
  if (ch <? nrows data) && (i <? ncols data) then Ok (item data ch i)
  else Raise IndexError.

(** [a[mask]] with a boolean mask as long as [a]. *)
Fixpoint bool_index {A : Type} (a : list A) (mask : list bool) : list A :=
  match a, mask with
  | x :: a', b :: mask' => if b then x :: bool_index a' mask' else bool_index a' mask'
  | _, _ => []
  end.

(** ** The numpy routines used by the code *)

(** [np.clip], [ndarray.sum] and the division of an array by a number. *)
Definition np_clip {F : Type} `{Scalar F} (a : list F) (a_min a_max : F) : list F :=
  map (fun x => let y := if ltb x a_min then a_min else x in
                if ltb a_max y then a_max else y) a.

Definition np_sum {F : Type} `{Scalar F} (a : list F) : F :=
  match a with
  | [] => lit 0
  | x :: r => fold_left add r x
  end.

Definition np_divide {F : Type} `{Scalar F} (a : list F) (s : F) : list F :=
  map (fun x => div x s) a.

Definition lit_nat {F : Type} `{Scalar F} (n : nat) : F := lit (inject_Z (Z.of_nat n)).

(** [np.fft.rfftfreq(n, d)]: the [n // 2 + 1] multiples of [1.0 / (n * d)]. *)
Definition rfftfreq {F : Type} `{Scalar F} (n : nat) (d : F) : list F :=
  let val := div (lit 1) (mul (lit_nat n) d) in
  map (fun k => mul (lit_nat k) val) (seq 0 (n / 2 + 1)).

(** The routines that leave the rationals, by their shape only. *)
Class Numpy (F : Type) : Type := {
  complex : Type;
  rfft : list F -> list complex;
  np_abs : complex -> F;
  log10 : F -> F;
  hanning : nat -> list F;
  rfft_length : forall a : list F, length (rfft a) = length a / 2 + 1;
  hanning_length : forall n : nat, length (hanning n) = n
}.

(** ** [DataSimulatorThread] *)

Section Simulator.
Context {F : Type} `{Scalar F}.

Definition DataSimulatorThread_init : DataSimulatorThread F :=
  SimThread false 250 8 (lit 0) 0 0.

(** [start()] enters [run], which sets the flag; [stop()] clears it.  The
    flag is set by the new thread, shortly after [start()] has returned:
    the thread the window holds is taken from the moment [run] has
    begun. *)
Definition thread_start (t : DataSimulatorThread F) : DataSimulatorThread F :=
  SimThread true (sample_rate t) (thread_n_channels t) (time t)
            (inference_counter t) (current_class t).

Definition thread_stop (t : DataSimulatorThread F) : DataSimulatorThread F :=
  SimThread false (sample_rate t) (thread_n_channels t) (time t)
            (inference_counter t) (current_class t).

(** Lines 77-79 of [run]: the vector is clipped into [0.05, 0.95] and
    divided by its sum. *)
Definition normalize_probs (left_prob right_prob : F) : list F :=
  let probs := [left_prob; right_prob] in
  let probs := np_clip probs (lit (5 # 100)) (lit (95 # 100)) in
  np_divide probs (np_sum probs).

(** Lines 64-79 of [run], the two draws of [np.random.randn()] given. *)
Definition run_inference (t : DataSimulatorThread F) (g0 g1 : F)
  : DataSimulatorThread F * list F :=
  let counter := (inference_counter t + 1)%Z in
  let class := if (counter mod 150 =? 0)%Z then (1 - current_class t)%Z
               else current_class t in
  let t' := SimThread (running t) (sample_rate t) (thread_n_channels t) (time t)
                      counter class in
  let wave := fun (base g : F) => add base (mul g (lit (1 # 10))) in
  if (class =? 0)%Z
  then (t', normalize_probs (wave (lit (7 # 10)) g0) (wave (lit (3 # 10)) g1))
  else (t', normalize_probs (wave (lit (3 # 10)) g0) (wave (lit (7 # 10)) g1)).

End Simulator.

(** ** [BCIMainWindow] *)

Section MainWindow.
Context {F : Type} `{Scalar F}.

Definition BCIMainWindow_init : BCIMainWindow F :=
  let n_channels := 8 in
  let buffer_size := 1000 in
  Window n_channels buffer_size
         (map (fun _ => deque_new buffer_size) (range n_channels))
         (deque_new buffer_size)
         (lit 0)
         [lit (1 # 2); lit (1 # 2)]
         None
         false.

Definition toggle_connection : M F unit :=
  w <- get ;;
  if negb (is_connected w) then
    ui (SetText ConnectBtn (Lit "⚡ 已连接")) ;;;
    ui (SetEnabled ConnectBtn false) ;;;
    ui (SetText ConnectionStatus (Lit "● 已连接")) ;;;
    ui (SetStyleSheet ConnectionStatus
          (CssLine "color: #00ff88; font-size: 14px; font-weight: bold;")) ;;;
    ui (SetText ModelLabel (Lit "模型: CTNet (已加载)")) ;;;
    modify (set_data_thread (Some (thread_start DataSimulatorThread_init))) ;;;
    modify (set_is_connected true) ;;;
    ui (SingleShot 2000 (SetEnabled ConnectBtn true)) ;;;
    ui (SingleShot 2000 (SetText ConnectBtn (Lit "🔌 断开连接")))
  else
    match data_thread w with
    | Some t => modify (set_data_thread (Some (thread_stop t)))
    | None => m_ret tt
    end ;;;
    ui (SetText ConnectBtn (Lit "🔌 连接设备")) ;;;
    ui (SetText ConnectionStatus (Lit "● 未连接")) ;;;
    ui (SetStyleSheet ConnectionStatus
          (CssLine "color: #ff4444; font-size: 14px; font-weight: bold;")) ;;;
    ui (SetText ModelLabel (Lit "模型: CTNet (未加载)")) ;;;
    modify (set_is_connected false).

(** The body of [for ch in range(self.n_channels)] at sample [i]. *)
Definition append_channel (data : ndarray F) (i ch : nat) : M F unit :=
  w <- get ;;
  buf <- of_res (list_getitem (eeg_buffers w) ch) ;;
  x <- of_res (getitem data ch i) ;;
  modify (set_eeg_buffers (<[ch := deque_append buf x]> (eeg_buffers w))).

(** The body of [for i in range(batch_size)]. *)
Definition append_sample (data : ndarray F) (i : nat) : M F unit :=
  modify (fun w => set_time_buffer (deque_append (time_buffer w) (time_counter w)) w) ;;;
  modify (fun w => set_time_counter (add (time_counter w) (div (lit 1) (lit 250))) w) ;;;
  w <- get ;;
  for_each (range (n_channels w)) (append_channel data i).

Definition on_new_eeg_data (data : ndarray F) : M F unit :=
  let batch_size := ncols data in
  for_each (range batch_size) (append_sample data) ;;;
  ui (SetText SamplesLabel (Lit "采样率: 250 Hz")).

(** The builtin [max] on a sequence: the first of the largest items. *)
Definition py_max (a : list F) : res F :=
  match a with
  | [] => Raise ValueError
  | x :: r => Ok (fold_left (fun m y => if ltb m y then y else m) r x)
  end.

Definition on_new_inference (probs : list F) : M F unit :=
  modify (set_inference_probs probs) ;;;
  p0 <- of_res (list_getitem probs 0) ;;
  p1 <- of_res (list_getitem probs 1) ;;
  (if ltb p1 p0 then
     ui (SetText ClassIndicator (Lit "← 左手")) ;;;
     ui (SetStyleSheet ClassIndicator (IndicatorCss "#ff4444"))
   else
     ui (SetText ClassIndicator (Lit "右手 →")) ;;;
     ui (SetStyleSheet ClassIndicator (IndicatorCss "#4444ff"))) ;;;
  m <- of_res (py_max probs) ;;
  let confidence := mul m (lit 100) in
  ui (SetText ConfidenceLabel (ConfidenceText confidence)).

(** Lines 77-81 of [DataSimulatorThread.run] together with the slot the
    signal [new_inference] is connected to. *)
Definition emit_new_inference (left_prob right_prob : F) : M F unit :=
  on_new_inference (normalize_probs left_prob right_prob).

Context `{Numpy F}.

(** Lines 499-509: the spectrum of the last 256 samples of channel 0. *)
Definition update_spectrum (buf0 : deque F) : M F unit :=
  if 256 <=? length (items buf0) then
    let data := drop (length (items buf0) - 256) (items buf0) in
    let fft_vals := rfft (zip_with mul data (hanning (length data))) in
    let fft_freq := rfftfreq (length data) (div (lit 1) (lit 250)) in
    let fft_power :=
      map (fun c => mul (lit 20) (log10 (add (np_abs c) (lit (1 # 10000000000)))))
          fft_vals in
    let freq_mask := map (fun f => leb f (lit 50)) fft_freq in
    ui (SetData SpectrumCurve (bool_index fft_freq freq_mask)
                (bool_index fft_power freq_mask))
  else m_ret tt.

Definition update_plots : M F unit :=
  w <- get ;;
  if negb (is_connected w) || (length (items (time_buffer w)) =? 0) then m_ret tt
  else
    let time_array := items (time_buffer w) in
    for_each (range (n_channels w)) (fun ch =>
      buf <- of_res (list_getitem (eeg_buffers w) ch) ;;
      ui (SetData (EegCurve ch) time_array (items buf))) ;;;
    ui (SetOpts (inference_probs w)) ;;;
    buf0 <- of_res (list_getitem (eeg_buffers w) 0) ;;
    update_spectrum buf0 ;;;
    ui (SetText FpsLabel (FpsText (1000 / 50))) ;;;
    packet_count <- of_res (to_int (div (mul (time_counter w) (lit 250)) (lit 10))) ;;
    ui (SetText PacketsLabel (PacketsText packet_count)).

(** ** The event loop of the main thread *)

Inductive Event : Type :=
| Clicked
| NewData (data : ndarray F)
| NewInference (probs : list F)
| Timeout.

Definition handle (e : Event) : M F unit :=
  match e with
  | Clicked => toggle_connection
  | NewData data => on_new_eeg_data data
  | NewInference probs => on_new_inference probs
  | Timeout => update_plots
  end.

Definition run_events (es : list Event) : M F unit := for_each es handle.

End MainWindow.

Arguments Event : clear implicits.

(** ** One turn of the loop of [DataSimulatorThread.run] *)

(** [np.pi] and [np.sin], which leave the rationals. *)
Class Trig (F : Type) : Type := {
  np_pi : F;
  np_sin : F -> F
}.

Section SimulatorRun.
Context {F : Type} `{Scalar F}.

(** [a - b], the sum of [a] and the opposite of [b]. *)
Definition sub (a b : F) : F := add a (mul (lit (-1)) b).

(** [np.linspace(start, stop, num)] with its default [endpoint=True], as
    NumPy computes it on scalars: with [div = num - 1] and
    [delta = stop - start], the values [arange(0, num) * step + start] for
    [step = delta / div] (computed as [(arange(0, num) / div) * delta] when
    the step is zero, and as [arange(0, num) * delta] when [div] is not
    positive), the last one then overwritten with [stop] when [num > 1]. *)
Definition np_linspace (start stop : F) (num : nat) : list F :=
  let div_ := num - 1 in
  let delta := sub stop start in
  let y := map lit_nat (seq 0 num) in
  let y :=
    if 0 <? div_ then
      let step := div delta (lit_nat div_) in
      let any_step_zero := leb step (lit 0) && leb (lit 0) step in
      if any_step_zero
      then map (fun yi => mul (div yi (lit_nat div_)) delta) y
      else map (fun yi => mul yi step) y
    else map (fun yi => mul yi delta) y in
  let y := map (fun yi => add yi start) y in
  if 1 <? num then take (num - 1) y ++ [stop] else y.

(** The local [batch_size] of [run]. *)
Definition batch_size : nat := 10.

(** [batch_size / self.sample_rate] *)
Definition batch_span (t : DataSimulatorThread F) : F :=
  div (lit_nat batch_size) (lit (inject_Z (sample_rate t))).

(** Line 44: the instants [t] of one batch. *)
Definition run_instants (t : DataSimulatorThread F) : list F :=
  np_linspace (time t) (add (time t) (batch_span t)) batch_size.

(** Line 60: [self.time += batch_size / self.sample_rate]. *)
Definition run_advance_time (t : DataSimulatorThread F) : DataSimulatorThread F :=
  SimThread (running t) (sample_rate t) (thread_n_channels t)
            (add (time t) (batch_span t)) (inference_counter t) (current_class t).

Context `{Trig F}.

(** Lines 50-55: the row of channel [ch], [noise i] being draw [i] of
    [np.random.randn(batch_size)]. *)
Definition run_signal (t : DataSimulatorThread F) (ch : nat) (noise : nat -> F) : list F :=
  let freq1 := add (lit 10) (mul (lit_nat ch) (lit (1 # 2))) in
  let freq2 := add (lit 20) (mul (lit_nat ch) (lit 1)) in
  let wave := fun (freq amp : F) =>
    map (fun ti => mul (np_sin (mul (mul (mul (lit 2) np_pi) freq) ti)) amp)
        (run_instants t) in
  zip_with add (zip_with add (wave freq1 (lit 20)) (wave freq2 (lit 10)))
           (map (fun i => mul (noise i) (lit 5)) (range batch_size)).

(** Lines 47-57: the array [eeg_data], zero where no row was written. *)
Definition run_eeg_data (t : DataSimulatorThread F) (noise : nat -> nat -> F) : ndarray F :=
  NdArray (thread_n_channels t) batch_size
          (fun ch i => if ch <? thread_n_channels t
                       then nth i (run_signal t ch (noise ch)) (lit 0)
                       else lit 0).

(** One turn of the loop: what it emits on [new_data] and on
    [new_inference], and the thread it leaves.  [noise ch i] is draw [i]
    of the [batch_size] draws made for channel [ch], [g0] and [g1] are the
    two draws made for the probabilities. *)
Definition run_turn (t : DataSimulatorThread F) (noise : nat -> nat -> F) (g0 g1 : F)
  : DataSimulatorThread F * (ndarray F * list F) :=
  let eeg_data := run_eeg_data t noise in
  let t1 := run_advance_time t in
  let '(t2, probs) := run_inference t1 g0 g1 in
  (t2, (eeg_data, probs)).

(** The draws of one turn. *)
Record Draws : Type := MkDraws { eeg_noise : nat -> nat -> F; g_left : F; g_right : F }.

(** The turns made on a list of draws, one per turn: the events the main
    thread receives, in the order of emission, and the thread left. *)
Fixpoint run_turns (t : DataSimulatorThread F) (draws : list Draws)
  : DataSimulatorThread F * list (Event F) :=
  match draws with
  | [] => (t, [])
  | d :: draws' =>
      let '(t', (eeg_data, probs)) := run_turn t (eeg_noise d) (g_left d) (g_right d) in
      let '(t'', events) := run_turns t' draws' in
      (t'', NewData eeg_data :: NewInference probs :: events)
  end.

End SimulatorRun.

Arguments Draws : clear implicits.


(** * The vocabulary of the statements

    What follows is not code of the program: these are the words in which
    the facts about it are stated. *)

(** ** Buffers and batches *)

Section BufferVocabulary.
Context {F : Type} `{Scalar F}.
Implicit Types (data : ndarray F) (w : BCIMainWindow F) (bufs : list (deque F))
  (e : Event F) (es : list (Event F)).

(** The channel buffers once channels [0 .. n-1] received sample [i]. *)
Definition channels_after data (i n : nat) bufs : list (deque F) :=
  imap (fun ch d => if ch <? n then deque_append d (item data ch i) else d) bufs.

(** The sample period the slot assumes, [1/250]. *)
Definition period : F := div (lit 1) (lit 250).

(** The first two statements of the outer loop body. *)
Definition stamp_sample w : BCIMainWindow F :=
  set_time_counter (add (time_counter w) period)
                   (set_time_buffer (deque_append (time_buffer w) (time_counter w)) w).

Definition sample_after data (i : nat) w : BCIMainWindow F :=
  set_eeg_buffers (channels_after data i (n_channels w) (eeg_buffers w)) (stamp_sample w).

(** The window left behind when the first sample of a batch hits a
    missing row. *)
Definition torn data w : BCIMainWindow F :=
  set_eeg_buffers (channels_after data 0 (nrows data) (eeg_buffers w)) (stamp_sample w).

(** [k] successive timestamps from [t] on, and the counter after them. *)
Fixpoint ticks (t : F) (k : nat) : list F :=
  match k with
  | 0 => []
  | S k' => t :: ticks (add t period) k'
  end.

Definition advance (t : F) (k : nat) : F := Nat.iter k (fun t => add t period) t.

(** The first [k] samples of channel [ch] of a batch. *)
Definition row data (ch k : nat) : list F := map (item data ch) (range k).

(** The window after the first [k] samples of a batch went in. *)
Definition ingested_upto data (k : nat) w : BCIMainWindow F :=
  Window (n_channels w) (buffer_size w)
         (imap (fun ch d => if ch <? n_channels w then deque_extend d (row data ch k) else d)
               (eeg_buffers w))
         (deque_extend (time_buffer w) (ticks (time_counter w) k))
         (advance (time_counter w) k)
         (inference_probs w) (data_thread w) (is_connected w).

Definition ingested data w : BCIMainWindow F := ingested_upto data (ncols data) w.

(** The window has its eight channel buffers, and they and the time axis
    hold the last [min 1000 n] of [n] samples. *)
Definition filled (n : nat) w : Prop :=
  n_channels w = 8 /\ length (eeg_buffers w) = 8 /\
  maxlen (time_buffer w) = 1000 /\
  length (items (time_buffer w)) = Nat.min 1000 n /\
  Forall (fun d => maxlen d = 1000 /\ length (items d) = Nat.min 1000 n) (eeg_buffers w).

(** A delivered batch has the shape the slot documents: a row for each
    of the eight channels. *)
Definition batch_shaped e : Prop :=
  match e with
  | NewData data => 8 <= nrows data
  | _ => True
  end.

Definition samples_of e : nat :=
  match e with
  | NewData data => ncols data
  | _ => 0
  end.

Definition samples_delivered es : nat := foldr (fun e n => samples_of e + n) 0 es.

End BufferVocabulary.

(** ** Slots and the calls they make *)

Section CallVocabulary.
Context {F : Type}.

(** A computation that writes no attribute of the window, whether it
    returns or raises. *)
Definition read_only {A : Type} (m : M F A) : Prop := forall w, window (m w) = w.

(** The class a text of the indicator stands for: 0 is the left hand, 1 the
    right hand, in the order of the probability vector. *)
Definition class_of_text (t : Text F) : option nat :=
  match t with
  | Lit s => if String.eqb s "← 左手" then Some 0
             else if String.eqb s "右手 →" then Some 1
             else None
  | _ => None
  end.

Definition shown_class (cs : list (UiCall F)) : option nat :=
  fold_left (fun acc c => match c with
                          | SetText ClassIndicator t => class_of_text t
                          | _ => acc
                          end) cs None.

Definition shown_confidence (cs : list (UiCall F)) : option F :=
  fold_left (fun acc c => match c with
                          | SetText ConfidenceLabel (ConfidenceText x) => Some x
                          | _ => acc
                          end) cs None.

(** The spectrum handed to the spectrum curve, [None] when it was handed
    none. *)
Definition shown_spectrum (cs : list (UiCall F)) : option (list F * list F) :=
  fold_left (fun acc c => match c with
                          | SetData SpectrumCurve x y => Some (x, y)
                          | _ => acc
                          end) cs None.

End CallVocabulary.

(** ** Concrete inputs *)

(** A stand-in for the numpy routines that has their shapes and nothing
    else; it serves to run the slots on concrete windows. *)
#[export] Instance numpy_shapes {F : Type} `{Scalar F} : Numpy F := {
  complex := F;
  rfft := fun a => map (fun _ => lit 0) (seq 0 (length a / 2 + 1));
  np_abs := fun c => c;
  log10 := fun x => x;
  hanning := fun n => map (fun _ => lit 1) (seq 0 n);
  rfft_length := fun a => eq_trans (length_map _ _) (length_seq _ _);
  hanning_length := fun n => eq_trans (length_map _ _) (length_seq _ _)
}.

(** A batch of the simulator's shape, for concrete runs: [r] rows of [c]
    samples, sample [i] of row [ch] being [100 * ch + i]. *)
Definition ramp {F : Type} `{Scalar F} (r c : nat) : ndarray F :=
  NdArray r c (fun ch i => lit_nat (100 * ch + i)).

(** ** Exact arithmetic *)

(** [np.clip] into [0.05, 0.95], on one number. *)
Definition clip_unit (x : Q) : Q :=
  let y := if ltb x (lit (5 # 100)) then lit (5 # 100) else x in
  if ltb (lit (95 # 100)) y then lit (95 # 100) else y.

(** The timestamp of sample number [k], [k / 250], in lowest terms. *)
Definition stamp (k : nat) : Q := Qred (inject_Z (Z.of_nat k) / 250).

Section SpectrumVocabulary.
Context `{Numpy Q}.

(** [20 * log10(|X| + 1e-10)] *)
Definition power_dB (X : complex) : Q :=
  mul (lit 20) (log10 (add (np_abs X) (lit (1 # 10000000000)))).

(** The spectral frame in the words of the specification: the last 256
    samples times the Hann window, transformed, in dB, on the bins
    [k * 250 / 256] for [k] from 0 to 51, which are the bins up to 50 Hz. *)
Definition spectral_frame (samples : list Q) : list Q * list Q :=
  let last_256 := drop (length samples - 256) samples in
  let X := rfft (zip_with mul last_256 (hanning 256)) in
  (map (fun k => Qred (inject_Z (Z.of_nat k) * (250 # 256))) (seq 0 52),
   map power_dB (take 52 X)).

End SpectrumVocabulary.

(** A window one batch of 256 samples into its first session, and the
    same window after the session was closed. *)
Definition session_256 : BCIMainWindow Q :=
  window (run_events [Clicked; NewData (ramp 8 256)] BCIMainWindow_init).

Definition closed_256 : BCIMainWindow Q :=
  window (run_events [Clicked; NewData (ramp 8 256); Clicked] BCIMainWindow_init).

(** In binary64 the same step lands within 1e-9 of a sum of 1, here on a
    few raw pairs, some far outside [0, 1]. *)
Definition sums_to_one_binary64 (left_prob right_prob : float) : bool :=
  match normalize_probs left_prob right_prob with
  | [a; b] => leb (PrimFloat.abs (PrimFloat.sub (add a b) 1)) (lit (1 # 1000000000))
              && leb (lit (49 # 1000)) a && leb a (lit (951 # 1000))
              && leb (lit (49 # 1000)) b && leb b (lit (951 # 1000))
  | _ => false
  end.

(** ** Words for the further properties *)

Section FurtherVocabulary.
Context {F : Type}.

(** A computation that leaves the attribute read by [f] as it was,
    whether it returns or raises. *)
Definition keeps {A B : Type} (f : BCIMainWindow F -> B) (m : M F A) : Prop :=
  forall w, f (window (m w)) = f w.

(** The flag [is_connected] says whether the window holds a running
    thread. *)
Definition linked (w : BCIMainWindow F) : Prop :=
  is_connected w = match data_thread w with
                   | Some t => running t
                   | None => false
                   end.

Definition clicks (es : list (Event F)) : nat :=
  length (filter (fun e => match e with Clicked => true | _ => false end = true) es).

(** No deque is over its bound of 1000 and no channel is longer than the
    time axis. *)
Definition within_capacity (w : BCIMainWindow F) : Prop :=
  length (eeg_buffers w) = 8 /\
  length (items (time_buffer w)) <= 1000 /\
  Forall (fun d => length (items d) <= length (items (time_buffer w))) (eeg_buffers w).

(** The packet count last written on its label. *)
Definition shown_packets (cs : list (UiCall F)) : option Z :=
  last (omap (fun c => match c with
                       | SetText PacketsLabel (PacketsText n) => Some n
                       | _ => None
                       end) cs).

(** The samples of channel [ch] in a list of batches, in the order of
    arrival. *)
Definition channel_stream (ch : nat) (batches : list (ndarray F)) : list F :=
  concat (map (fun data => map (item data ch) (range (ncols data))) batches).

(** The data handed to the channel curves, in the order of the calls. *)
Definition curve_calls (cs : list (UiCall F)) : list (nat * (list F * list F)) :=
  omap (fun c => match c with
                 | SetData (EegCurve ch) x y => Some (ch, (x, y))
                 | _ => None
                 end) cs.

(** What the slots can take: a batch with a row for each of the eight
    channels, a vector with the two components the slot reads. *)
Definition deliverable (e : Event F) : Prop :=
  match e with
  | NewData data => 8 <= nrows data
  | NewInference probs => 2 <= length probs
  | _ => True
  end.

(** What the thread emits: batches of 8 rows by 10 columns and vectors of
    two components. *)
Definition emitted (e : Event F) : Prop :=
  match e with
  | NewData data => nrows data = 8 /\ ncols data = 10
  | NewInference probs => length probs = 2
  | _ => False
  end.

(** The heights last handed to the bar graph. *)
Definition bar_heights (cs : list (UiCall F)) : option (list F) :=
  last (omap (fun c => match c with
                       | SetOpts height => Some height
                       | _ => None
                       end) cs).

(** The vectors delivered on [new_inference], in the order of arrival. *)
Definition vectors_delivered (es : list (Event F)) : list (list F) :=
  omap (fun e => match e with
                 | NewInference probs => Some probs
                 | _ => None
                 end) es.

End FurtherVocabulary.

(** ** Words for the clocks, in any arithmetic *)

Section ClockVocabulary.
Context {F : Type} `{Scalar F}.

(** The window after [n] samples: the counter is 0 advanced [n] times by
    the period, each time with the addition of the arithmetic, and the
    time axis holds the last [min 1000 n] of the values it went through. *)
Definition clocked (n : nat) (w : BCIMainWindow F) : Prop :=
  filled n w /\
  time_counter w = advance (lit 0) n /\
  items (time_buffer w) = drop (n - Nat.min 1000 n) (ticks (lit 0) n).

(** [|a - b| < tol] *)
Definition near (tol a b : F) : bool := ltb (sub a b) tol && ltb (sub b a) tol.

(** The clock of a thread made by [DataSimulatorThread()] after [k] turns:
    0 advanced [k] times by [batch_size / sample_rate]. *)
Definition thread_clock (k : nat) : F :=
  Nat.iter k (fun c => add c (div (lit_nat batch_size) (lit (inject_Z 250)))) (lit 0).

(** [int(self.time_counter * 250 / 10)] *)
Definition packet_count (counter : F) : res Z :=
  to_int (div (mul counter (lit 250)) (lit 10)).

(** The instants of the batch of turn [k] lie within [1e-9] of the grid
    [k/25 + i/225], [i] counting from 0. *)
Definition on_grid (k : Z) (instants : list F) : bool :=
  forallb (fun ix => near (lit (1 # 1000000000)) (snd ix)
                          (add (div (lit (inject_Z k)) (lit 25))
                               (div (lit_nat (fst ix)) (lit 225))))
          (zip (seq 0 (length instants)) instants).

(** Each instant lies more than one period, [1/250], after the one
    before it. *)
Definition wider_than_period (instants : list F) : bool :=
  forallb (fun xy => ltb (add (fst xy) period) (snd xy)) (zip instants (tail instants)).

(** The first instant is the clock [c]. *)
Definition starts_at (c : F) (instants : list F) : bool :=
  match instants with
  | [] => false
  | x :: _ => leb x c && leb c x
  end.

End ClockVocabulary.

(** [p k x] for [x], [f x], [f (f x)], ... and [k] from [k0] to [k0 + n];
    the count is kept in binary. *)
Fixpoint holds_along {A : Type} (f : A -> A) (p : Z -> A -> bool)
    (k0 : Z) (x : A) (n : nat) : bool :=
  if p k0 x
  then match n with
       | 0 => true
       | S n' => holds_along f p (k0 + 1) (f x) n'
       end
  else false.

(** What the slots return on: a batch with a row for each of the eight
    channels or with no sample at all, a vector of at least two
    components. *)
Definition accepted {F : Type} (e : Event F) : Prop :=
  match e with
  | NewData data => 8 <= nrows data \/ ncols data = 0
  | NewInference probs => 2 <= length probs
  | _ => True
  end.

(** * Facts *)

Section DequeFacts.
Context {A : Type}.
Implicit Types (d : deque A) (x : A) (xs : list A).

Lemma deque_append_maxlen d x : maxlen (deque_append d x) = maxlen d.
Proof. reflexivity. Qed.

Lemma deque_append_items d x :
  length (items d) <= maxlen d ->
  items (deque_append d x) = drop (length (items d ++ [x]) - maxlen d) (items d ++ [x]).
Proof.
  intros Hle. unfold deque_append. cbn [items maxlen].
  rewrite length_app. cbn [length].
  destruct (Nat.ltb_spec (maxlen d) (length (items d) + 1)) as [Hlt|Hge].
  - replace (length (items d) + 1 - maxlen d) with 1 by lia. reflexivity.
  - replace (length (items d) + 1 - maxlen d) with 0 by lia. reflexivity.
Qed.

Lemma deque_extend_maxlen xs : forall d, maxlen (deque_extend d xs) = maxlen d.
Proof.
  induction xs as [|x xs IH]; intros d; [reflexivity|].
  cbn. unfold deque_extend in IH. rewrite IH. reflexivity.
Qed.

Lemma deque_extend_snoc d xs x :
  deque_extend d (xs ++ [x]) = deque_append (deque_extend d xs) x.
Proof. unfold deque_extend. rewrite fold_left_app. reflexivity. Qed.

Lemma deque_extend_items xs : forall d,
  length (items d) <= maxlen d ->
  items (deque_extend d xs) = drop (length (items d ++ xs) - maxlen d) (items d ++ xs).
Proof.
  induction xs as [|x xs IH] using rev_ind; intros d Hle.
  - cbn. rewrite app_nil_r. replace (length (items d) - maxlen d) with 0 by lia.
    reflexivity.
  - rewrite deque_extend_snoc. rewrite deque_append_items.
    + rewrite deque_extend_maxlen, (IH d Hle).
      rewrite app_assoc.
      set (l := items d ++ xs).
      rewrite <- drop_app_le by (subst l; lia).
      rewrite drop_drop. f_equal.
      rewrite !length_app, length_drop, length_app. cbn [length]. subst l.
      rewrite length_app. lia.
    + rewrite deque_extend_maxlen, (IH d Hle), length_drop, length_app. lia.
Qed.

Lemma deque_extend_length d xs :
  length (items d) <= maxlen d ->
  length (items (deque_extend d xs)) = Nat.min (maxlen d) (length (items d) + length xs).
Proof.
  intros Hle. rewrite deque_extend_items by exact Hle.
  rewrite length_drop, length_app. lia.
Qed.

End DequeFacts.

(** ** Loops *)

Section LoopFacts.
Context {F A : Type}.
Implicit Types (body : A -> M F unit) (w : BCIMainWindow F).

Lemma for_each_app xs ys body w :
  for_each (xs ++ ys) body w = (for_each xs body ;;; for_each ys body) w.
Proof.
  revert w. induction xs as [|x xs IH]; intros w.
  - cbn. unfold m_bind. cbn. destruct (for_each ys body w); reflexivity.
  - cbn. unfold m_bind.
    destruct (body x w) as [[[]|e] w1 c1]; [|reflexivity].
    rewrite IH. unfold m_bind.
    destruct (for_each xs body w1) as [[[]|e] w2 c2]; [|reflexivity].
    destruct (for_each ys body w2) as [r w3 c3].
    rewrite app_assoc. reflexivity.
Qed.

(** A loop stops at the first item whose body raises. *)
Lemma for_each_raise xs x ys body w w1 w2 e :
  for_each xs body w = MkOut (Ok tt) w1 [] ->
  body x w1 = MkOut (Raise e) w2 [] ->
  for_each (xs ++ x :: ys) body w = MkOut (Raise e) w2 [].
Proof.
  intros Hxs Hx. rewrite for_each_app. unfold m_bind. rewrite Hxs. cbn.
  unfold m_bind. rewrite Hx. reflexivity.
Qed.

End LoopFacts.

Lemma range_S (n : nat) : range (S n) = range n ++ [n].
Proof. unfold range. rewrite seq_S. reflexivity. Qed.

Lemma range_split (r n : nat) :
  r < n -> range n = range r ++ r :: seq (S r) (n - S r).
Proof.
  intros Hlt. unfold range.
  replace n with (r + S (n - S r)) at 1 by lia.
  rewrite seq_app. reflexivity.
Qed.

(** ** What [on_new_eeg_data] does to the buffers *)

Section Ingest.
Context {F : Type} `{Scalar F}.
Implicit Types (data : ndarray F) (w : BCIMainWindow F) (bufs : list (deque F)).

Lemma set_eeg_buffers_id w : set_eeg_buffers (eeg_buffers w) w = w.
Proof. destruct w; reflexivity. Qed.

Lemma set_eeg_buffers_twice bufs bufs' w :
  set_eeg_buffers bufs (set_eeg_buffers bufs' w) = set_eeg_buffers bufs w.
Proof. reflexivity. Qed.

Lemma channels_after_length data i n bufs :
  length (channels_after data i n bufs) = length bufs.
Proof. apply length_imap. Qed.

Lemma channels_after_lookup data i n bufs ch :
  channels_after data i n bufs !! ch =
  (fun d => if ch <? n then deque_append d (item data ch i) else d) <$> bufs !! ch.
Proof. apply list_lookup_imap. Qed.

Lemma channels_after_lookup_Some data i n bufs ch d :
  bufs !! ch = Some d ->
  channels_after data i n bufs !! ch
  = Some (if ch <? n then deque_append d (item data ch i) else d).
Proof. intros Hd. rewrite channels_after_lookup, Hd. reflexivity. Qed.

Lemma ltb_irrefl (n : nat) : (n <? n) = false.
Proof. apply Nat.ltb_ge; lia. Qed.

Lemma ltb_succ (n : nat) : (n <? S n) = true.
Proof. apply Nat.ltb_lt; lia. Qed.

Lemma channels_after_0 data i bufs : channels_after data i 0 bufs = bufs.
Proof.
  apply list_eq. intros ch. rewrite channels_after_lookup.
  destruct (bufs !! ch); reflexivity.
Qed.

Lemma channels_after_S data i n bufs d :
  bufs !! n = Some d ->
  <[n := deque_append d (item data n i)]> (channels_after data i n bufs)
  = channels_after data i (S n) bufs.
Proof.
  intros Hd. apply list_eq. intros ch.
  destruct (decide (ch = n)) as [->|Hne].
  - rewrite list_lookup_insert_eq.
    + rewrite (channels_after_lookup_Some _ _ _ _ _ d Hd), ltb_succ. reflexivity.
    + rewrite channels_after_length. apply lookup_lt_Some in Hd. exact Hd.
  - rewrite list_lookup_insert_ne by congruence.
    rewrite !channels_after_lookup.
    replace (ch <? S n) with (ch <? n); [reflexivity|].
    destruct (Nat.ltb_spec ch n), (Nat.ltb_spec ch (S n)); try reflexivity; lia.
Qed.

Lemma append_channel_ok data i ch w d :
  eeg_buffers w !! ch = Some d -> ch < nrows data -> i < ncols data ->
  append_channel data i ch w
  = MkOut (Ok tt)
          (set_eeg_buffers (<[ch := deque_append d (item data ch i)]> (eeg_buffers w)) w) [].
Proof.
  intros Hd Hch Hi. unfold append_channel, m_bind, get, of_res, list_getitem, getitem.
  cbn [result window calls]. rewrite Hd.
  apply Nat.ltb_lt in Hch, Hi. rewrite Hch, Hi. reflexivity.
Qed.

Lemma append_channel_raise data i ch w d :
  eeg_buffers w !! ch = Some d -> nrows data <= ch ->
  append_channel data i ch w = MkOut (Raise IndexError) w [].
Proof.
  intros Hd Hch. unfold append_channel, m_bind, get, of_res, list_getitem, getitem.
  cbn [result window calls]. rewrite Hd.
  apply Nat.ltb_ge in Hch. rewrite Hch. reflexivity.
Qed.

(** The inner loop over the first [n] channels. *)
Lemma channels_loop_ok data i n w :
  n <= length (eeg_buffers w) -> n <= nrows data -> i < ncols data ->
  for_each (range n) (append_channel data i) w
  = MkOut (Ok tt) (set_eeg_buffers (channels_after data i n (eeg_buffers w)) w) [].
Proof.
  intros Hlen Hrows Hi. induction n as [|n IH].
  - cbn. rewrite channels_after_0, set_eeg_buffers_id. reflexivity.
  - rewrite range_S, for_each_app. unfold m_bind.
    rewrite IH by lia. cbn [result window calls].
    destruct (lookup_lt_is_Some_2 (eeg_buffers w) n ltac:(lia)) as [d Hd].
    cbn [for_each]. unfold m_bind.
    rewrite (append_channel_ok data i n _ d); [| |lia|lia].
    + cbn. rewrite set_eeg_buffers_twice.
      rewrite (channels_after_S data i n _ d Hd). reflexivity.
    + cbn [eeg_buffers set_eeg_buffers].
      rewrite (channels_after_lookup_Some _ _ _ _ _ d Hd), ltb_irrefl. reflexivity.
Qed.

(** With fewer rows than channels asked for, the inner loop raises at the
    first missing row, the rows before it already appended. *)
Lemma channels_loop_raise data i n w :
  nrows data < n -> n <= length (eeg_buffers w) -> i < ncols data ->
  for_each (range n) (append_channel data i) w
  = MkOut (Raise IndexError)
          (set_eeg_buffers (channels_after data i (nrows data) (eeg_buffers w)) w) [].
Proof.
  intros Hrows Hlen Hi.
  rewrite (range_split (nrows data) n) by lia.
  destruct (lookup_lt_is_Some_2 (eeg_buffers w) (nrows data) ltac:(lia)) as [d Hd].
  eapply for_each_raise.
  - apply channels_loop_ok; lia.
  - eapply append_channel_raise; [|lia].
    cbn [eeg_buffers set_eeg_buffers].
    rewrite (channels_after_lookup_Some _ _ _ _ _ d Hd), ltb_irrefl. reflexivity.
Qed.

Lemma append_sample_ok data i w :
  n_channels w <= length (eeg_buffers w) -> n_channels w <= nrows data -> i < ncols data ->
  append_sample data i w = MkOut (Ok tt) (sample_after data i w) [].
Proof.
  intros Hlen Hrows Hi. unfold append_sample, m_bind, modify, get.
  cbn [result window calls].
  change (set_time_counter _ _) with (stamp_sample w).
  rewrite channels_loop_ok by (cbn; lia). reflexivity.
Qed.

Lemma append_sample_raise data i w :
  nrows data < n_channels w -> n_channels w <= length (eeg_buffers w) -> i < ncols data ->
  append_sample data i w
  = MkOut (Raise IndexError)
          (set_eeg_buffers (channels_after data i (nrows data) (eeg_buffers w))
                           (stamp_sample w)) [].
Proof.
  intros Hrows Hlen Hi. unfold append_sample, m_bind, modify, get.
  cbn [result window calls].
  change (set_time_counter _ _) with (stamp_sample w).
  rewrite channels_loop_raise by (cbn; lia). reflexivity.
Qed.

Lemma ticks_snoc k : forall t, ticks t (S k) = ticks t k ++ [advance t k].
Proof.
  induction k as [|k IH]; intros t; [reflexivity|].
  change (ticks t (S (S k))) with (t :: ticks (add t period) (S k)).
  rewrite IH. cbn [ticks app]. do 2 f_equal.
  unfold advance. rewrite !Nat.iter_succ_r. reflexivity.
Qed.

Lemma ticks_length k : forall t, length (ticks t k) = k.
Proof. induction k as [|k IH]; intros t; cbn; [|rewrite IH]; reflexivity. Qed.

Lemma row_snoc data ch k : row data ch (S k) = row data ch k ++ [item data ch k].
Proof. unfold row. rewrite range_S, map_app. reflexivity. Qed.

Lemma row_length data ch k : length (row data ch k) = k.
Proof. unfold row, range. rewrite length_map, length_seq. reflexivity. Qed.

Lemma ingested_upto_0 data w : ingested_upto data 0 w = w.
Proof.
  destruct w as [n b bufs tb tc p th c]. unfold ingested_upto.
  cbn [n_channels buffer_size eeg_buffers time_buffer time_counter inference_probs
       data_thread is_connected ticks advance Nat.iter nat_rect deque_extend fold_left].
  f_equal.
  apply list_eq. intros ch. rewrite list_lookup_imap.
  destruct (bufs !! ch); [|reflexivity].
  cbn [fmap option_fmap option_map n_channels]. destruct (ch <? n); reflexivity.
Qed.

Lemma ingested_upto_S data k w :
  sample_after data k (ingested_upto data k w) = ingested_upto data (S k) w.
Proof.
  unfold sample_after, stamp_sample, ingested_upto, set_eeg_buffers, set_time_counter,
    set_time_buffer. cbn [n_channels buffer_size eeg_buffers time_buffer time_counter
    inference_probs data_thread is_connected].
  f_equal.
  - apply list_eq. intros ch. rewrite channels_after_lookup, !list_lookup_imap.
    destruct (eeg_buffers w !! ch) as [d|]; [|reflexivity].
    cbn [fmap option_fmap option_map].
    destruct (ch <? n_channels w); [|reflexivity].
    rewrite row_snoc, deque_extend_snoc. reflexivity.
  - rewrite ticks_snoc, deque_extend_snoc. reflexivity.
Qed.

(** The outer loop over the first [k] samples. *)
Lemma samples_loop_ok data k w :
  n_channels w <= length (eeg_buffers w) -> n_channels w <= nrows data -> k <= ncols data ->
  for_each (range k) (append_sample data) w = MkOut (Ok tt) (ingested_upto data k w) [].
Proof.
  intros Hlen Hrows. induction k as [|k IH]; intros Hk.
  - cbn. rewrite ingested_upto_0. reflexivity.
  - rewrite range_S, for_each_app. unfold m_bind.
    rewrite IH by lia. cbn [result window calls for_each]. unfold m_bind.
    rewrite append_sample_ok.
    + rewrite ingested_upto_S. reflexivity.
    + cbn. rewrite length_imap. exact Hlen.
    + exact Hrows.
    + lia.
Qed.

(** A batch with a row for each channel goes in whole. *)
Lemma on_new_eeg_data_ok data w :
  n_channels w <= length (eeg_buffers w) -> n_channels w <= nrows data ->
  on_new_eeg_data data w
  = MkOut (Ok tt) (ingested data w) [SetText SamplesLabel (Lit "采样率: 250 Hz")].
Proof.
  intros Hlen Hrows. unfold on_new_eeg_data, m_bind.
  rewrite samples_loop_ok by lia. reflexivity.
Qed.

(** A batch short of rows raises at its first sample. *)
Lemma on_new_eeg_data_raise data w :
  nrows data < n_channels w -> n_channels w <= length (eeg_buffers w) -> 0 < ncols data ->
  on_new_eeg_data data w = MkOut (Raise IndexError) (torn data w) [].
Proof.
  intros Hrows Hlen Hcols. unfold on_new_eeg_data, m_bind.
  rewrite (range_split 0 (ncols data)) by lia.
  rewrite (for_each_raise [] 0 _ _ w w (torn data w) IndexError); [reflexivity..|].
  apply append_sample_raise; lia.
Qed.

(** A batch with no sample leaves everything as it was. *)
Lemma on_new_eeg_data_empty data w :
  ncols data = 0 ->
  on_new_eeg_data data w = MkOut (Ok tt) w [SetText SamplesLabel (Lit "采样率: 250 Hz")].
Proof. intros Hcols. unfold on_new_eeg_data, m_bind. rewrite Hcols. reflexivity. Qed.

End Ingest.

(** ** Slots that leave the window alone *)

Section ReadOnly.
Context {F : Type}.

Lemma read_only_ret {A : Type} (a : A) : read_only (m_ret (F:=F) a).
Proof. intros w. reflexivity. Qed.

Lemma read_only_raise {A : Type} (e : exn) : read_only (raise (F:=F) (A:=A) e).
Proof. intros w. reflexivity. Qed.

Lemma read_only_get : read_only (get (F:=F)).
Proof. intros w. reflexivity. Qed.

Lemma read_only_ui (c : UiCall F) : read_only (ui c).
Proof. intros w. reflexivity. Qed.

Lemma read_only_of_res {A : Type} (r : res A) : read_only (of_res (F:=F) r).
Proof. destruct r; intros w; reflexivity. Qed.

Lemma read_only_bind {A B : Type} (m : M F A) (k : A -> M F B) :
  read_only m -> (forall a, read_only (k a)) -> read_only (m_bind m k).
Proof.
  intros Hm Hk w. unfold m_bind. specialize (Hm w).
  destruct (m w) as [[a|e] w1 c1]; cbn in Hm; subst w1; [|reflexivity].
  specialize (Hk a w). destruct (k a w); exact Hk.
Qed.

Lemma read_only_for_each {A : Type} (xs : list A) (body : A -> M F unit) :
  (forall x, read_only (body x)) -> read_only (for_each xs body).
Proof.
  intros Hbody. induction xs as [|x xs IH]; cbn [for_each].
  - apply read_only_ret.
  - apply read_only_bind; [apply Hbody|intros _; exact IH].
Qed.

Lemma read_only_if {A : Type} (b : bool) (m1 m2 : M F A) :
  read_only m1 -> read_only m2 -> read_only (if b then m1 else m2).
Proof. destruct b; auto. Qed.

End ReadOnly.

Create HintDb read_only discriminated.
#[export] Hint Resolve read_only_ret read_only_raise read_only_get read_only_ui
  read_only_of_res read_only_bind read_only_for_each read_only_if : read_only.

(** One step of a proof that a slot is read-only, by the shape of its code. *)
Ltac read_only_step :=
  lazymatch goal with
  | |- read_only (m_bind _ _) => apply read_only_bind
  | |- read_only (for_each _ _) => apply read_only_for_each
  | |- read_only (if _ then _ else _) => apply read_only_if
  | |- read_only _ => solve [auto with read_only]
  | |- forall _, _ => intro
  end.

Section Frames.
Context {F : Type} `{Scalar F}.
Implicit Types (w : BCIMainWindow F).

Lemma update_spectrum_read_only `{Numpy F} (buf0 : deque F) : read_only (update_spectrum buf0).
Proof. unfold update_spectrum. auto with read_only. Qed.

Lemma update_plots_read_only `{Numpy F} : read_only update_plots.
Proof.
  pose proof update_spectrum_read_only.
  unfold update_plots. repeat read_only_step.
Qed.

(** With the guard closed the timer slot does nothing at all. *)
Lemma update_plots_idle `{Numpy F} w :
  is_connected w = false \/ length (items (time_buffer w)) = 0 ->
  update_plots w = MkOut (Ok tt) w [].
Proof.
  intros Hidle. unfold update_plots, m_bind, get. cbn [result window calls].
  replace (negb (is_connected w) || (length (items (time_buffer w)) =? 0)) with true;
    [reflexivity|].
  destruct Hidle as [-> | ->]; [reflexivity|].
  cbn. rewrite orb_true_r. reflexivity.
Qed.

(** [on_new_inference] stores the vector it is given, as it is given,
    before anything can raise. *)
Lemma on_new_inference_window (probs : list F) w :
  window (on_new_inference probs w) = set_inference_probs probs w.
Proof.
  unfold on_new_inference, m_bind, modify. cbn [result window calls].
  destruct (list_getitem probs 0) as [p0|e]; cbn; [|reflexivity].
  destruct (list_getitem probs 1) as [p1|e]; cbn; [|reflexivity].
  destruct (ltb p1 p0); cbn; destruct (py_max probs); reflexivity.
Qed.

Lemma toggle_connection_window w :
  toggle_connection w
  = if negb (is_connected w)
    then MkOut (Ok tt)
           (set_is_connected true
              (set_data_thread (Some (thread_start DataSimulatorThread_init)) w))
           [SetText ConnectBtn (Lit "⚡ 已连接");
            SetEnabled ConnectBtn false;
            SetText ConnectionStatus (Lit "● 已连接");
            SetStyleSheet ConnectionStatus
              (CssLine "color: #00ff88; font-size: 14px; font-weight: bold;");
            SetText ModelLabel (Lit "模型: CTNet (已加载)");
            SingleShot 2000 (SetEnabled ConnectBtn true);
            SingleShot 2000 (SetText ConnectBtn (Lit "🔌 断开连接"))]
    else MkOut (Ok tt)
           (set_is_connected false (set_data_thread (thread_stop <$> data_thread w) w))
           [SetText ConnectBtn (Lit "🔌 连接设备");
            SetText ConnectionStatus (Lit "● 未连接");
            SetStyleSheet ConnectionStatus
              (CssLine "color: #ff4444; font-size: 14px; font-weight: bold;");
            SetText ModelLabel (Lit "模型: CTNet (未加载)")].
Proof.
  unfold toggle_connection, m_bind, get. cbn [result window calls].
  destruct w as [n b bufs tb tc p [t|] c]; destruct c; reflexivity.
Qed.

End Frames.

(** ** The fill invariant of the ring buffers *)

Section Fill.
Context {F : Type} `{Scalar F} `{Numpy F}.
Implicit Types (w : BCIMainWindow F) (data : ndarray F) (e : Event F) (es : list (Event F)).

Lemma filled_init : filled 0 (BCIMainWindow_init (F:=F)).
Proof. unfold filled. cbn. repeat split; try reflexivity. repeat constructor. Qed.

Lemma filled_ingested n data w :
  filled n w -> filled (n + ncols data) (ingested data w).
Proof.
  intros (Hn & Hlen & Htm & Htl & Hbufs). unfold filled, ingested, ingested_upto.
  cbn [n_channels eeg_buffers time_buffer].
  rewrite length_imap, deque_extend_maxlen, deque_extend_length, ticks_length by lia.
  repeat split; try assumption; try lia.
  apply Forall_lookup. intros ch d'. rewrite list_lookup_imap.
  destruct (eeg_buffers w !! ch) as [d|] eqn:Hd; [|discriminate].
  intros [= <-].
  destruct (Forall_lookup_1 _ _ _ _ Hbufs Hd) as [Hm Hl].
  apply lookup_lt_Some in Hd.
  replace (ch <? n_channels w) with true by (symmetry; apply Nat.ltb_lt; lia).
  rewrite deque_extend_maxlen, deque_extend_length, row_length by lia.
  split; [assumption|lia].
Qed.

Lemma filled_same_buffers n w w' :
  n_channels w' = n_channels w -> eeg_buffers w' = eeg_buffers w ->
  time_buffer w' = time_buffer w -> filled n w -> filled n w'.
Proof. unfold filled. intros -> -> ->. exact id. Qed.

(** Every slot but [on_new_eeg_data] keeps the buffers, raising or not. *)
Lemma handle_other_buffers e w :
  samples_of e = 0 -> (forall data, e <> NewData data) ->
  let w' := window (handle e w) in
  n_channels w' = n_channels w /\ eeg_buffers w' = eeg_buffers w /\
  time_buffer w' = time_buffer w /\ time_counter w' = time_counter w.
Proof.
  intros _ Hne. destruct e as [|data|probs|]; cbn [handle].
  - rewrite toggle_connection_window. destruct (negb (is_connected w)); cbn; auto.
  - destruct (Hne data eq_refl).
  - rewrite on_new_inference_window. cbn; auto.
  - rewrite update_plots_read_only. auto.
Qed.

(** An invariant indexed by the number of samples delivered, advanced by
    every well-shaped batch and blind to everything but the buffers and the
    counter, holds along every run of the event loop. *)
Lemma run_events_invariant (I : nat -> BCIMainWindow F -> Prop) :
  (forall n w data, I n w -> 8 <= nrows data ->
     result (on_new_eeg_data data w) = Ok tt /\
     I (n + ncols data) (window (on_new_eeg_data data w))) ->
  (forall n w w', I n w ->
     n_channels w' = n_channels w -> eeg_buffers w' = eeg_buffers w ->
     time_buffer w' = time_buffer w -> time_counter w' = time_counter w -> I n w') ->
  forall es n w,
    I n w -> Forall batch_shaped es ->
    let o := run_events es w in
    exists m, m <= samples_delivered es /\
              (result o = Ok tt -> m = samples_delivered es) /\
              I (n + m) (window o).
Proof.
  intros Hdata Hother. induction es as [|e es IH]; intros n w Hf Hes.
  - exists 0. cbn. rewrite Nat.add_0_r. auto.
  - apply Forall_cons in Hes as [He Hes].
    assert (Hh : (result (handle e w) = Ok tt /\ I (n + samples_of e) (window (handle e w)))
                 \/ (samples_of e = 0 /\ I n (window (handle e w)))).
    { destruct e as [|data|probs|].
      2:{ left. apply Hdata; assumption. }
      all: right; split; [reflexivity|].
      all: match goal with |- _ _ (window (handle ?e' _)) =>
             destruct (handle_other_buffers e' w eq_refl ltac:(discriminate)) as (?&?&?&?) end.
      all: eapply Hother; eauto. }
    change (samples_delivered (e :: es)) with (samples_of e + samples_delivered es).
    cbn [run_events for_each]. unfold m_bind. fold (run_events es).
    destruct (handle e w) as [[[]|ex] w1 c1]; cbn [result window] in Hh.
    + assert (Hf1 : I (n + samples_of e) w1).
      { destruct Hh as [[_ Hf']|[Hs Hf']]; [exact Hf'|].
        rewrite Hs, Nat.add_0_r. exact Hf'. }
      destruct (IH _ _ Hf1 Hes) as (m & Hle & Hall & Hfm).
      destruct (run_events es w1) as [r w2 c2]. cbn [result window] in *.
      exists (samples_of e + m). split; [lia|]. split.
      * intros Hr. rewrite (Hall Hr). reflexivity.
      * rewrite Nat.add_assoc. exact Hfm.
    + destruct Hh as [[Hok _]|[Hs Hf']]; [discriminate|].
      exists 0. cbn [result window]. split; [lia|]. split; [discriminate|].
      rewrite Nat.add_0_r. exact Hf'.
Qed.

Lemma run_events_filled es : forall n w,
  filled n w -> Forall batch_shaped es ->
  let o := run_events es w in
  exists m, m <= samples_delivered es /\
            (result o = Ok tt -> m = samples_delivered es) /\
            filled (n + m) (window o).
Proof.
  apply (run_events_invariant filled).
  - intros n w data Hf Hrows. pose proof (filled_ingested n data w Hf) as Hf'.
    destruct Hf as (Hn & Hlen & _).
    rewrite on_new_eeg_data_ok by lia. split; [reflexivity|exact Hf'].
  - intros n w w' Hf Hn Hb Ht _. exact (filled_same_buffers n w w' Hn Hb Ht Hf).
Qed.

(** A run of batches alone never raises. *)
Lemma run_batches_ok (batches : list (ndarray F)) : forall n w,
  filled n w -> Forall (fun data => 8 <= nrows data) batches ->
  result (run_events (map NewData batches) w) = Ok tt.
Proof.
  induction batches as [|data batches IH]; intros n w Hf Hes; [reflexivity|].
  apply Forall_cons in Hes as [He Hes].
  cbn [map run_events for_each handle]. unfold m_bind.
  assert (Hf' : filled (n + ncols data) (ingested data w)) by (apply filled_ingested; exact Hf).
  destruct Hf as (Hn & Hlen & Hrest).
  rewrite on_new_eeg_data_ok by lia.
  fold (run_events (map NewData batches)).
  specialize (IH _ _ Hf' Hes).
  destruct (run_events (map NewData batches) (ingested data w)); exact IH.
Qed.

End Fill.

Section InferenceFacts.
Context {F : Type} `{Scalar F}.

Lemma on_new_inference_pair (p0 p1 : F) (w : BCIMainWindow F) :
  on_new_inference [p0; p1] w
  = MkOut (Ok tt) (set_inference_probs [p0; p1] w)
          ((if ltb p1 p0
            then [SetText ClassIndicator (Lit "← 左手");
                  SetStyleSheet ClassIndicator (IndicatorCss "#ff4444")]
            else [SetText ClassIndicator (Lit "右手 →");
                  SetStyleSheet ClassIndicator (IndicatorCss "#4444ff")])
           ++ [SetText ConfidenceLabel
                 (ConfidenceText (mul (if ltb p0 p1 then p1 else p0) (lit 100)))]).
Proof.
  unfold on_new_inference, m_bind, modify, of_res, list_getitem, py_max. cbn.
  destruct (ltb p1 p0); reflexivity.
Qed.

Lemma on_new_inference_class (p0 p1 : F) (w : BCIMainWindow F) :
  shown_class (calls (on_new_inference [p0; p1] w)) = Some (if ltb p1 p0 then 0 else 1).
Proof. rewrite on_new_inference_pair. cbn [calls]. destruct (ltb p1 p0); reflexivity. Qed.

End InferenceFacts.

(** ** Exact arithmetic *)

Lemma qltb_true (a b : Q) : ltb a b = true <-> (a < b)%Q.
Proof.
  cbn. unfold ExactScalar.qltb. rewrite negb_true_iff.
  split.
  - intros Hf. apply Qnot_le_lt. intros Hle. apply Qle_bool_iff in Hle. congruence.
  - intros Hlt. destruct (Qle_bool b a) eqn:Hb; [|reflexivity].
    apply Qle_bool_iff in Hb. apply Qle_not_lt in Hb. contradiction.
Qed.

Lemma qltb_false (a b : Q) : ltb a b = false <-> (b <= a)%Q.
Proof.
  cbn. unfold ExactScalar.qltb. rewrite negb_false_iff. apply Qle_bool_iff.
Qed.

Lemma clip_unit_range (x : Q) : (1 # 20 <= clip_unit x /\ clip_unit x <= 19 # 20)%Q.
Proof.
  unfold clip_unit.
  change (lit (5 # 100)) with (1 # 20)%Q. change (lit (95 # 100)) with (19 # 20)%Q.
  destruct (ltb x (1 # 20)%Q) eqn:Hlo.
  - destruct (ltb (19 # 20)%Q (1 # 20)%Q) eqn:Hhi; [discriminate|]. split; lra.
  - apply qltb_false in Hlo.
    destruct (ltb (19 # 20)%Q x) eqn:Hhi.
    + split; lra.
    + apply qltb_false in Hhi. split; lra.
Qed.

Lemma normalize_probs_exact (l r : Q) :
  normalize_probs l r
  = [Qred (clip_unit l / Qred (clip_unit l + clip_unit r));
     Qred (clip_unit r / Qred (clip_unit l + clip_unit r))].
Proof. reflexivity. Qed.

Lemma share_range (a b : Q) :
  (1 # 20 <= a <= 19 # 20)%Q -> (1 # 20 <= b <= 19 # 20)%Q ->
  (1 # 20 <= a / (a + b) /\ a / (a + b) <= 19 # 20)%Q.
Proof.
  intros Ha Hb. split.
  - apply Qle_shift_div_l; lra.
  - apply Qle_shift_div_r; lra.
Qed.

(** ** The time axis in exact arithmetic *)

Lemma stamp_0 : lit 0 = stamp 0.
Proof. reflexivity. Qed.

Lemma stamp_value (k : nat) : (stamp k == inject_Z (Z.of_nat k) / 250)%Q.
Proof. apply Qred_correct. Qed.

Lemma stamp_S (k : nat) : add (stamp k) period = stamp (S k).
Proof.
  change (add (stamp k) period) with (Qred (stamp k + (1 # 250))).
  unfold stamp. apply Qred_complete. rewrite Qred_correct.
  rewrite Nat2Z.inj_succ. unfold Z.succ. rewrite inject_Z_plus. field.
Qed.

Lemma ticks_stamp (k : nat) : forall n, ticks (stamp n) k = map stamp (seq n k).
Proof.
  induction k as [|k IH]; intros n; [reflexivity|].
  cbn [ticks seq map]. rewrite stamp_S, IH. reflexivity.
Qed.

Lemma advance_stamp (k : nat) : forall n, advance (stamp n) k = stamp (n + k).
Proof.
  induction k as [|k IH]; intros n.
  - rewrite Nat.add_0_r. reflexivity.
  - unfold advance in *. rewrite Nat.iter_succ_r, stamp_S, IH. f_equal. lia.
Qed.

(** ** The spectrum *)

Lemma bool_index_none {A : Type} (m : nat) : forall a : list A,
  bool_index a (replicate m false) = [].
Proof.
  induction m as [|m IH]; intros [|x a]; try reflexivity. cbn. apply IH.
Qed.

Lemma bool_index_prefix {A : Type} (n m : nat) : forall a : list A,
  bool_index a (replicate n true ++ replicate m false) = take n a.
Proof.
  induction n as [|n IH]; intros a.
  - cbn [replicate app]. rewrite bool_index_none. destruct a; reflexivity.
  - destruct a as [|x a]; [reflexivity|]. cbn. rewrite IH. reflexivity.
Qed.

Section SpectrumFacts.
Context {F : Type}.

Lemma shown_spectrum_from (cs : list (UiCall F)) : forall acc,
  fold_left (fun acc c => match c with
                          | SetData SpectrumCurve x y => Some (x, y)
                          | _ => acc
                          end) cs acc
  = match shown_spectrum cs with Some s => Some s | None => acc end.
Proof.
  unfold shown_spectrum. induction cs as [|c cs IH]; intros acc; [reflexivity|].
  cbn [fold_left]. rewrite IH. symmetry. rewrite IH.
  destruct (fold_left _ cs None); [reflexivity|].
  destruct c as [| | |[]| |]; reflexivity.
Qed.

Lemma shown_spectrum_app (cs cs' : list (UiCall F)) :
  shown_spectrum (cs ++ cs')
  = match shown_spectrum cs' with Some s => Some s | None => shown_spectrum cs end.
Proof. unfold shown_spectrum at 1. rewrite fold_left_app. apply shown_spectrum_from. Qed.

Context `{Scalar F} `{Numpy F}.

Lemma update_spectrum_eta (buf0 : deque F) (w : BCIMainWindow F) :
  update_spectrum buf0 w = MkOut (Ok tt) w (calls (update_spectrum buf0 w)).
Proof. unfold update_spectrum. destruct (256 <=? _); reflexivity. Qed.

Lemma update_spectrum_not_ready (buf0 : deque F) (w : BCIMainWindow F) :
  length (items buf0) < 256 -> update_spectrum buf0 w = MkOut (Ok tt) w [].
Proof.
  intros Hlt. unfold update_spectrum.
  replace (256 <=? length (items buf0)) with false; [reflexivity|].
  symmetry. apply Nat.leb_gt. exact Hlt.
Qed.

(** The loop over the channel curves, when every channel has its buffer. *)
Lemma curves_loop_ok (w w0 : BCIMainWindow F) (time_array : list F) (n : nat) :
  n <= length (eeg_buffers w) ->
  exists cs,
    for_each (range n) (fun ch =>
      buf <- of_res (list_getitem (eeg_buffers w) ch) ;;
      ui (SetData (EegCurve ch) time_array (items buf))) w0
    = MkOut (Ok tt) w0 cs /\ shown_spectrum cs = None.
Proof.
  intros Hlen. induction n as [|n IH].
  - exists []. split; reflexivity.
  - destruct (IH ltac:(lia)) as (cs & Heq & Hcs).
    destruct (lookup_lt_is_Some_2 (eeg_buffers w) n ltac:(lia)) as [d Hd].
    exists (cs ++ [SetData (EegCurve n) time_array (items d)]). split.
    + rewrite range_S, for_each_app. unfold m_bind at 1. rewrite Heq.
      cbn [for_each]. unfold m_bind, of_res, list_getitem. rewrite Hd. reflexivity.
    + rewrite shown_spectrum_app. exact Hcs.
Qed.

End SpectrumFacts.

Section SpectrumExact.
Context `{Numpy Q}.

Lemma update_spectrum_ready (buf0 : deque Q) (w : BCIMainWindow Q) :
  256 <= length (items buf0) ->
  update_spectrum buf0 w
  = MkOut (Ok tt) w [SetData SpectrumCurve (spectral_frame (items buf0)).1
                                           (spectral_frame (items buf0)).2].
Proof.
  intros Hge. unfold update_spectrum, spectral_frame.
  replace (256 <=? length (items buf0)) with true by (symmetry; apply Nat.leb_le; exact Hge).
  set (data := drop (length (items buf0) - 256) (items buf0)).
  assert (Hdata : length data = 256) by (subst data; rewrite length_drop; lia).
  rewrite Hdata. cbn [fst snd].
  set (X := rfft (zip_with mul data (hanning 256))).
  assert (Hmask : map (fun f : Q => leb f (lit 50)) (rfftfreq 256 (div (lit 1) (lit 250)))
                  = replicate 52 true ++ replicate 77 false) by (vm_compute; reflexivity).
  rewrite Hmask, (bool_index_prefix 52 77), (bool_index_prefix 52 77).
  assert (Hfreq : take 52 (rfftfreq 256 (div (lit 1) (lit 250)))
                  = map (fun k => Qred (inject_Z (Z.of_nat k) * (250 # 256))) (seq 0 52))
    by (vm_compute; reflexivity).
  rewrite Hfreq. change (map power_dB (take 52 X)) with (power_dB <$> take 52 X).
  rewrite fmap_take. reflexivity.
Qed.

Lemma update_plots_spectrum (w : BCIMainWindow Q) (buf0 : deque Q) :
  is_connected w = true -> items (time_buffer w) <> [] ->
  n_channels w <= length (eeg_buffers w) -> eeg_buffers w !! 0 = Some buf0 ->
  result (update_plots w) = Ok tt /\
  shown_spectrum (calls (update_plots w)) = shown_spectrum (calls (update_spectrum buf0 w)).
Proof.
  intros Hc Ht Hn Hb.
  assert (Hout : exists cs', update_plots w = MkOut (Ok tt) w cs' /\
            shown_spectrum cs' = shown_spectrum (calls (update_spectrum buf0 w))).
  { unfold update_plots, m_bind at 1, get.
    rewrite Hc. destruct (items (time_buffer w)) as [|t0 ts] eqn:Hts; [congruence|].
    cbn [negb orb length Nat.eqb].
    destruct (curves_loop_ok w w (t0 :: ts) (n_channels w) Hn) as (cs & Heq & Hcs).
    unfold m_bind at 1. rewrite Heq.
    unfold m_bind, ui, of_res, list_getitem, m_ret. rewrite Hb. cbv beta iota.
    rewrite (update_spectrum_eta buf0 w). cbv beta iota.
    cbn [to_int Q_scalar ExactScalar.qtrunc calls result].
    eexists. split; [reflexivity|].
    rewrite !shown_spectrum_app, Hcs.
    generalize (shown_spectrum (calls (update_spectrum buf0 w))).
    intros [s|]; reflexivity. }
  destruct Hout as (cs' & -> & Hs). split; [reflexivity|exact Hs].
Qed.

End SpectrumExact.

(** In binary64 too the mask [fft_freq <= 50] keeps the first 52 of the
    129 bins. *)
Example freq_mask_binary64 :
  map (fun f : float => leb f (lit 50)) (rfftfreq 256 (div (lit 1) (lit 250)))
  = replicate 52 true ++ replicate 77 false.
Proof. vm_compute. reflexivity. Qed.

Example normalize_probs_binary64 :
  forallb (fun p => sums_to_one_binary64 (fst p) (snd p))
          [(0.7, 0.3); (0.62, 0.41); (1, 0); (0.5, 0.5); (0.93, 0.07); (0.31, 0.69);
           (1e308, -1e308); (-3, 7); (0.05, 0.95); (0.123456789, 0.2)]%float = true.
Proof. vm_compute. reflexivity. Qed.

(** ** Attributes a slot does not write *)

Section Keeps.
Context {F B : Type} (f : BCIMainWindow F -> B).

Lemma keeps_ret {A : Type} (a : A) : keeps f (m_ret a).
Proof. intros w. reflexivity. Qed.

Lemma keeps_raise {A : Type} (e : exn) : keeps f (raise (A:=A) e).
Proof. intros w. reflexivity. Qed.

Lemma keeps_get : keeps f get.
Proof. intros w. reflexivity. Qed.

Lemma keeps_ui (c : UiCall F) : keeps f (ui c).
Proof. intros w. reflexivity. Qed.

Lemma keeps_of_res {A : Type} (r : res A) : keeps f (of_res r).
Proof. destruct r; intros w; reflexivity. Qed.

Lemma keeps_modify (g : BCIMainWindow F -> BCIMainWindow F) :
  (forall w, f (g w) = f w) -> keeps f (modify g).
Proof. intros Hg w. apply Hg. Qed.

Lemma keeps_bind {A C : Type} (m : M F A) (k : A -> M F C) :
  keeps f m -> (forall a, keeps f (k a)) -> keeps f (m_bind m k).
Proof.
  intros Hm Hk w. unfold m_bind. specialize (Hm w).
  destruct (m w) as [[a|e] w1 c1]; cbn [window] in Hm; [|exact Hm].
  specialize (Hk a w1). destruct (k a w1) as [r w2 c2]. cbn [window] in *. congruence.
Qed.

Lemma keeps_for_each {A : Type} (xs : list A) (body : A -> M F unit) :
  (forall x, keeps f (body x)) -> keeps f (for_each xs body).
Proof.
  intros Hbody. induction xs as [|x xs IH]; cbn [for_each].
  - apply keeps_ret.
  - apply keeps_bind; [apply Hbody|intros _; exact IH].
Qed.

End Keeps.

(** One step of a proof that a slot keeps an attribute; [tac] settles the
    setters. *)
Ltac keeps_step tac :=
  lazymatch goal with
  | |- keeps _ (m_bind _ _) => apply keeps_bind
  | |- keeps _ (for_each _ _) => apply keeps_for_each
  | |- keeps _ (modify _) => apply keeps_modify; tac
  | |- keeps _ (m_ret _) => apply keeps_ret
  | |- keeps _ get => apply keeps_get
  | |- keeps _ (ui _) => apply keeps_ui
  | |- keeps _ (of_res _) => apply keeps_of_res
  | |- forall _, _ => intro
  end.

Section KeepsSlots.
Context {F : Type} `{Scalar F}.

(** [on_new_eeg_data] writes [eeg_buffers], [time_buffer] and
    [time_counter] and nothing else. *)
Lemma on_new_eeg_data_keeps {B : Type} (f : BCIMainWindow F -> B) (data : ndarray F) :
  (forall v w, f (set_eeg_buffers v w) = f w) ->
  (forall v w, f (set_time_buffer v w) = f w) ->
  (forall v w, f (set_time_counter v w) = f w) ->
  keeps f (on_new_eeg_data data).
Proof.
  intros He Ht Hc. unfold on_new_eeg_data, append_sample, append_channel.
  repeat keeps_step ltac:(intros; first [apply He | apply Ht | apply Hc]).
Qed.

Lemma handle_linked `{Numpy F} (e : Event F) (w : BCIMainWindow F) :
  linked w -> linked (window (handle e w)).
Proof.
  unfold linked. intros Hl. destruct e as [|data|probs|]; cbn [handle].
  - rewrite toggle_connection_window.
    destruct (is_connected w) eqn:Hc; cbn [negb window is_connected data_thread
      set_is_connected set_data_thread]; [|reflexivity].
    destruct (data_thread w); reflexivity.
  - rewrite (on_new_eeg_data_keeps is_connected), (on_new_eeg_data_keeps data_thread);
      try reflexivity. exact Hl.
  - rewrite on_new_inference_window. exact Hl.
  - rewrite update_plots_read_only. exact Hl.
Qed.

Lemma toggle_connection_flips (w : BCIMainWindow F) :
  result (toggle_connection w) = Ok tt /\
  is_connected (window (toggle_connection w)) = negb (is_connected w).
Proof.
  rewrite toggle_connection_window. destruct (is_connected w); split; reflexivity.
Qed.

Lemma handle_is_connected `{Numpy F} (e : Event F) (w : BCIMainWindow F) :
  is_connected (window (handle e w))
  = match e with Clicked => negb (is_connected w) | _ => is_connected w end.
Proof.
  destruct e as [|data|probs|]; cbn [handle].
  - apply toggle_connection_flips.
  - apply (on_new_eeg_data_keeps is_connected); reflexivity.
  - rewrite on_new_inference_window. reflexivity.
  - rewrite update_plots_read_only. reflexivity.
Qed.

(** What holds of the window at the head of a run and is kept by every
    slot holds at its end. *)
Lemma run_events_kept `{Numpy F} (P : BCIMainWindow F -> Prop) :
  (forall e w, P w -> P (window (handle e w))) ->
  forall es w, P w -> P (window (run_events es w)).
Proof.
  intros Hh. induction es as [|e es IH]; intros w Hw; [exact Hw|].
  cbn [run_events for_each]. unfold m_bind. fold (run_events es).
  specialize (Hh e w Hw). destruct (handle e w) as [[[]|ex] w1 c1]; cbn [window] in *.
  - specialize (IH w1 Hh). destruct (run_events es w1); exact IH.
  - exact Hh.
Qed.

(** A run that returns flips the flag once for each click. *)
Lemma run_events_clicks `{Numpy F} (es : list (Event F)) : forall w : BCIMainWindow F,
  result (run_events es w) = Ok tt ->
  is_connected (window (run_events es w)) = xorb (is_connected w) (Nat.odd (clicks es)).
Proof.
  induction es as [|e es IH]; intros w Hr.
  - cbn. destruct (is_connected w); reflexivity.
  - revert Hr. cbn [run_events for_each]. unfold m_bind. fold (run_events es).
    pose proof (handle_is_connected e w) as Hc.
    destruct (handle e w) as [[[]|ex] w1 c1]; cbn [window] in Hc.
    + specialize (IH w1). destruct (run_events es w1) as [r w2 c2].
      cbn [result window] in *. intros Hr. rewrite (IH Hr), Hc.
      destruct e as [|data|probs|]; unfold clicks; cbn [filter list_filter];
        try (destruct (decide _) as [Hd|Hd]; [discriminate Hd|]; reflexivity).
      destruct (decide _) as [Hd|Hd]; [|congruence].
      cbn [length]. rewrite Nat.odd_succ, <- Nat.negb_odd.
      destruct (is_connected w), (Nat.odd _); reflexivity.
    + discriminate.
Qed.

Lemma emitted_clicks (es : list (Event F)) : Forall emitted es -> clicks es = 0.
Proof.
  induction 1 as [|e es He _ IH]; [reflexivity|].
  unfold clicks in *. destruct e as [|data|probs|]; cbn [emitted] in He; try tauto;
    cbn [filter list_filter]; (destruct (decide _) as [Hd|Hd]; [discriminate Hd|exact IH]).
Qed.

End KeepsSlots.

(** ** Any batch whatever *)

Section AnyBatch.
Context {F : Type} `{Scalar F} `{Numpy F}.
Implicit Types (w : BCIMainWindow F) (data : ndarray F).

Lemma deque_append_length {A : Type} (d : deque A) (x : A) :
  length (items d) <= maxlen d ->
  length (items (deque_append d x)) = Nat.min (maxlen d) (length (items d) + 1).
Proof. intros Hle. exact (deque_extend_length d [x] Hle). Qed.

Lemma filled_within_capacity n w : filled n w -> within_capacity w.
Proof.
  intros (_ & Hlen & _ & Ht & Hb). split; [exact Hlen|]. split; [lia|].
  eapply Forall_impl; [exact Hb|]. intros d [_ Hd]. lia.
Qed.

Lemma torn_within_capacity n data w :
  filled n w -> within_capacity (torn data w).
Proof.
  intros (_ & Hlen & Hm & Ht & Hb). unfold within_capacity, torn.
  cbn [eeg_buffers time_buffer set_eeg_buffers stamp_sample set_time_counter
       set_time_buffer].
  rewrite channels_after_length, deque_append_length by lia.
  split; [exact Hlen|]. split; [lia|].
  apply Forall_lookup. intros ch d'. rewrite channels_after_lookup.
  destruct (eeg_buffers w !! ch) as [d|] eqn:Hd; [|discriminate].
  cbn [fmap option_fmap option_map]. intros [= <-].
  destruct (Forall_lookup_1 _ _ _ _ Hb Hd) as [Hdm Hdl].
  destruct (ch <? nrows data); [rewrite deque_append_length by lia|]; lia.
Qed.

(** From a window whose buffers are level, a slot either returns and
    leaves them level, or raises and leaves them within capacity. *)
Lemma handle_level_or_raise n (e : Event F) w :
  filled n w ->
  (result (handle e w) = Ok tt /\ exists n', filled n' (window (handle e w))) \/
  ((exists ex, result (handle e w) = Raise ex) /\ within_capacity (window (handle e w))).
Proof.
  intros Hf. destruct e as [|data|probs|].
  2:{ cbn [handle]. pose proof Hf as (Hn & Hlen & _).
      destruct (Nat.le_gt_cases 8 (nrows data)) as [Hrows|Hrows].
      - left. rewrite on_new_eeg_data_ok by lia. split; [reflexivity|].
        eexists. apply filled_ingested. exact Hf.
      - destruct (Nat.eq_0_gt_0_cases (ncols data)) as [Hc|Hc].
        + left. rewrite on_new_eeg_data_empty by exact Hc. split; [reflexivity|].
          exists n. exact Hf.
        + right. rewrite on_new_eeg_data_raise by lia. split; [eexists; reflexivity|].
          eapply torn_within_capacity. exact Hf. }
  all: match goal with |- context [handle ?e' ?w'] =>
         destruct (handle_other_buffers e' w' eq_refl ltac:(discriminate)) as (Hn&Hb&Ht&_);
         pose proof (filled_same_buffers n w' _ Hn Hb Ht Hf) as Hf';
         destruct (result (handle e' w')) as [[]|ex]
       end.
  all: first [ left; split; [reflexivity|exists n; exact Hf']
             | right; split; [eexists; reflexivity|eapply filled_within_capacity; exact Hf'] ].
Qed.

Lemma run_events_level_or_raise (es : list (Event F)) : forall n w,
  filled n w ->
  (result (run_events es w) = Ok tt /\ exists n', filled n' (window (run_events es w))) \/
  ((exists ex, result (run_events es w) = Raise ex) /\
   within_capacity (window (run_events es w))).
Proof.
  induction es as [|e es IH]; intros n w Hf.
  - left. split; [reflexivity|]. exists n. exact Hf.
  - cbn [run_events for_each]. unfold m_bind. fold (run_events es).
    destruct (handle_level_or_raise n e w Hf) as [[Hr (n' & Hf')]|[(ex & Hr) Hc]];
      destruct (handle e w) as [r w1 c1]; cbn [result window] in *; subst r.
    + specialize (IH n' w1 Hf'). destruct (run_events es w1) as [r w2 c2].
      cbn [result window] in *. exact IH.
    + right. split; [eexists; reflexivity|exact Hc].
Qed.

(** The channel buffers after a run of well-shaped batches. *)
Lemma run_batches_streams (batches : list (ndarray F)) : forall w ch,
  n_channels w = 8 -> length (eeg_buffers w) = 8 ->
  Forall (fun data => 8 <= nrows data) batches -> ch < 8 ->
  eeg_buffers (window (run_events (map NewData batches) w)) !! ch
  = (fun d => deque_extend d (channel_stream ch batches)) <$> eeg_buffers w !! ch.
Proof.
  induction batches as [|data batches IH]; intros w ch Hn Hlen Hb Hch.
  - cbn. destruct (eeg_buffers w !! ch); reflexivity.
  - apply Forall_cons in Hb as [Hd Hb].
    cbn [map run_events for_each handle]. unfold m_bind.
    rewrite on_new_eeg_data_ok by lia. fold (run_events (map NewData batches)).
    specialize (IH (ingested data w) ch Hn).
    destruct (run_events (map NewData batches) (ingested data w)) as [r w2 c2].
    cbn [window] in *. rewrite IH; [|cbn; rewrite length_imap; exact Hlen|exact Hb|exact Hch].
    unfold ingested, ingested_upto. cbn [eeg_buffers].
    rewrite list_lookup_imap, Hn.
    destruct (eeg_buffers w !! ch) as [d|]; [|reflexivity].
    cbn [fmap option_fmap option_map].
    replace (ch <? 8) with true by (symmetry; apply Nat.ltb_lt; exact Hch).
    unfold channel_stream, deque_extend, row. cbn [map concat].
    rewrite fold_left_app. reflexivity.
Qed.

End AnyBatch.

(** ** The inference slot on any vector *)

Section InferenceAny.
Context {F : Type} `{Scalar F}.

Lemma on_new_inference_calls (p0 p1 : F) (rest : list F) (w : BCIMainWindow F) :
  on_new_inference (p0 :: p1 :: rest) w
  = MkOut (Ok tt) (set_inference_probs (p0 :: p1 :: rest) w)
          ((if ltb p1 p0
            then [SetText ClassIndicator (Lit "← 左手");
                  SetStyleSheet ClassIndicator (IndicatorCss "#ff4444")]
            else [SetText ClassIndicator (Lit "右手 →");
                  SetStyleSheet ClassIndicator (IndicatorCss "#4444ff")])
           ++ [SetText ConfidenceLabel
                 (ConfidenceText
                    (mul (fold_left (fun m y => if ltb m y then y else m) (p1 :: rest) p0)
                         (lit 100)))]).
Proof.
  unfold on_new_inference, m_bind, modify, of_res, list_getitem, py_max.
  cbn [lookup list_lookup m_ret ui].
  destruct (ltb p1 p0); reflexivity.
Qed.

End InferenceAny.

(** The builtin [max] over exact numbers: an item that no item exceeds. *)
Lemma fold_max_greatest (r : list Q) : forall x : Q,
  let m := fold_left (fun m y => if ltb m y then y else m) r x in
  In m (x :: r) /\ forall p, In p (x :: r) -> (p <= m)%Q.
Proof.
  induction r as [|y r IH]; intros x.
  - cbn. split; [left; reflexivity|]. intros p [<-|[]]. apply Qle_refl.
  - cbn [fold_left]. destruct (ltb x y) eqn:Hxy.
    + apply qltb_true in Hxy. destruct (IH y) as [Hin Hge]. split.
      * right. exact Hin.
      * intros p [<-|Hp]; [|apply Hge; exact Hp].
        eapply Qle_trans; [apply Qlt_le_weak; exact Hxy|]. apply Hge. left. reflexivity.
    + apply qltb_false in Hxy. destruct (IH x) as [Hin Hge]. split.
      * destruct Hin as [<-|Hin]; [left; reflexivity|right; right; exact Hin].
      * intros p [<-|[<-|Hp]].
        -- apply Hge. left. reflexivity.
        -- eapply Qle_trans; [exact Hxy|]. apply Hge. left. reflexivity.
        -- apply Hge. right. exact Hp.
Qed.

(** What [normalize_probs] makes of two raw values, in exact arithmetic. *)
Lemma normalize_probs_shares (l r : Q) :
  exists a b : Q,
    normalize_probs l r = [a; b] /\
    (a + b == 1)%Q /\
    (1 # 20 <= a)%Q /\ (a <= 19 # 20)%Q /\ (1 # 20 <= b)%Q /\ (b <= 19 # 20)%Q /\
    ((b < a)%Q <-> (clip_unit r < clip_unit l)%Q).
Proof.
  rewrite normalize_probs_exact.
  pose proof (clip_unit_range l) as Hl. pose proof (clip_unit_range r) as Hr.
  set (cl := clip_unit l) in *. set (cr := clip_unit r) in *.
  eexists _, _. split; [reflexivity|].
  rewrite !Qred_correct.
  destruct (share_range cl cr Hl Hr) as [Ha1 Ha2].
  destruct (share_range cr cl Hr Hl) as [Hb1 Hb2].
  assert (Hba : (cr + cl == cl + cr)%Q) by ring.
  rewrite Hba in Hb1, Hb2.
  assert (Hpos : (0 < / (cl + cr))%Q) by (apply Qinv_lt_0_compat; lra).
  repeat split; try lra.
  - field. lra.
  - unfold Qdiv. intros Hlt. apply (Qmult_lt_r _ _ _ Hpos). exact Hlt.
  - unfold Qdiv. intros Hlt. apply (Qmult_lt_r _ _ _ Hpos). exact Hlt.
Qed.

Lemma clip_unit_order (l r : Q) :
  (clip_unit r < clip_unit l)%Q <-> (r < l)%Q /\ (r < 19 # 20)%Q /\ (1 # 20 < l)%Q.
Proof.
  unfold clip_unit.
  change (lit (5 # 100)) with (1 # 20)%Q. change (lit (95 # 100)) with (19 # 20)%Q.
  assert (Hc : ltb (19 # 20)%Q (1 # 20)%Q = false) by reflexivity.
  destruct (ltb l (1 # 20)%Q) eqn:Hl1, (ltb r (1 # 20)%Q) eqn:Hr1,
           (ltb (19 # 20)%Q l) eqn:Hl2, (ltb (19 # 20)%Q r) eqn:Hr2;
    rewrite ?Hc;
    repeat match goal with
           | Hx : ltb _ _ = true |- _ => apply qltb_true in Hx
           | Hx : ltb _ _ = false |- _ => apply qltb_false in Hx
           end;
    split; intros; repeat split; lra.
Qed.

(** The class schedule of the source. *)
Lemma class_schedule_step (k c : Z) :
  (0 <= k)%Z -> c = ((k / 150) mod 2)%Z ->
  (if ((k + 1) mod 150 =? 0)%Z then (1 - c)%Z else c) = (((k + 1) / 150) mod 2)%Z.
Proof.
  intros Hk ->. destruct (Z.eqb_spec ((k + 1) mod 150) 0) as [Hz|Hz].
  - assert (Hq : ((k + 1) / 150 = k / 150 + 1)%Z).
    { pose proof (Z.div_mod (k + 1) 150 ltac:(lia)).
      pose proof (Z.div_mod k 150 ltac:(lia)).
      pose proof (Z.mod_pos_bound k 150 ltac:(lia)). nia. }
    rewrite Hq.
    pose proof (Z.mod_pos_bound (k / 150) 2 ltac:(lia)).
    pose proof (Z.mod_pos_bound (k / 150 + 1) 2 ltac:(lia)).
    pose proof (Z.div_mod (k / 150) 2 ltac:(lia)).
    pose proof (Z.div_mod (k / 150 + 1) 2 ltac:(lia)). lia.
  - assert (Hq : ((k + 1) / 150 = k / 150)%Z).
    { pose proof (Z.div_mod (k + 1) 150 ltac:(lia)).
      pose proof (Z.div_mod k 150 ltac:(lia)).
      pose proof (Z.mod_pos_bound k 150 ltac:(lia)).
      pose proof (Z.mod_pos_bound (k + 1) 150 ltac:(lia)). nia. }
    rewrite Hq. reflexivity.
Qed.

Lemma run_inference_thread {F : Type} `{Scalar F} (t : DataSimulatorThread F) (g0 g1 : F) :
  fst (run_inference t g0 g1)
  = SimThread (running t) (sample_rate t) (thread_n_channels t) (time t)
              (inference_counter t + 1)
              (if ((inference_counter t + 1) mod 150 =? 0)%Z
               then (1 - current_class t)%Z else current_class t).
Proof. unfold run_inference. destruct (_ =? 0)%Z; reflexivity. Qed.

(** ** The loop of the thread *)

Section ThreadFacts.
Context {F : Type} `{Scalar F} `{Trig F}.
Implicit Types (t : DataSimulatorThread F).

Lemma run_inference_probs t (g0 g1 : F) : length (snd (run_inference t g0 g1)) = 2.
Proof. unfold run_inference. destruct (_ =? 0)%Z; reflexivity. Qed.

Lemma run_turn_eq t noise (g0 g1 : F) :
  run_turn t noise g0 g1
  = (fst (run_inference (run_advance_time t) g0 g1),
     (run_eeg_data t noise, snd (run_inference (run_advance_time t) g0 g1))).
Proof. unfold run_turn. destruct (run_inference _ _ _); reflexivity. Qed.

Lemma run_turns_cons t (d : Draws F) draws :
  run_turns t (d :: draws)
  = let turn := run_turn t (eeg_noise d) (g_left d) (g_right d) in
    (fst (run_turns (fst turn) draws),
     NewData (fst (snd turn)) :: NewInference (snd (snd turn))
       :: snd (run_turns (fst turn) draws)).
Proof.
  cbn [run_turns]. destruct (run_turn _ _ _ _) as [t' [eeg_data probs]].
  cbn [fst snd]. destruct (run_turns t' draws). reflexivity.
Qed.

(** The thread after one turn. *)
Lemma run_turn_thread t noise (g0 g1 : F) :
  fst (run_turn t noise g0 g1)
  = SimThread (running t) (sample_rate t) (thread_n_channels t)
              (add (time t) (batch_span t))
              (inference_counter t + 1)
              (if ((inference_counter t + 1) mod 150 =? 0)%Z
               then (1 - current_class t)%Z else current_class t).
Proof. rewrite run_turn_eq. cbn [fst]. rewrite run_inference_thread. reflexivity. Qed.

Lemma run_turns_schedule (draws : list (Draws F)) : forall t,
  (0 <= inference_counter t)%Z ->
  current_class t = ((inference_counter t / 150) mod 2)%Z ->
  let t' := fst (run_turns t draws) in
  inference_counter t' = (inference_counter t + Z.of_nat (length draws))%Z /\
  current_class t' = (((inference_counter t + Z.of_nat (length draws)) / 150) mod 2)%Z.
Proof.
  induction draws as [|d draws IH]; intros t Hk Hc.
  - cbn. rewrite Z.add_0_r. split; [reflexivity|exact Hc].
  - rewrite run_turns_cons. cbv zeta. cbn [fst]. rewrite run_turn_thread.
    match goal with |- context [run_turns ?t1 draws] => specialize (IH t1) end.
    cbn [inference_counter current_class] in IH.
    destruct IH as [IHk IHc]; [lia|apply class_schedule_step; assumption|].
    rewrite IHk, IHc. cbn [length]. rewrite Nat2Z.inj_succ.
    replace (inference_counter t + 1 + Z.of_nat (length draws))%Z
      with (inference_counter t + Z.succ (Z.of_nat (length draws)))%Z by lia.
    split; reflexivity.
Qed.

(** What the turns emit, whatever the draws. *)
Lemma run_turns_emitted (draws : list (Draws F)) : forall t,
  thread_n_channels t = 8 ->
  Forall emitted (snd (run_turns t draws)) /\
  samples_delivered (snd (run_turns t draws)) = 10 * length draws.
Proof.
  induction draws as [|d draws IH]; intros t Hn.
  - split; [constructor|reflexivity].
  - rewrite run_turns_cons. cbv zeta. cbn [snd].
    match goal with |- context [run_turns ?t1 draws] => specialize (IH t1) end.
    rewrite run_turn_thread in IH. destruct (IH Hn) as [IHe IHs].
    rewrite run_turn_thread. split.
    + constructor; [|constructor; [|exact IHe]].
      * rewrite run_turn_eq. cbn [fst snd emitted run_eeg_data nrows ncols].
        split; [exact Hn|reflexivity].
      * rewrite run_turn_eq. cbn [fst snd emitted]. apply run_inference_probs.
    + unfold samples_delivered in *. cbn [foldr samples_of]. rewrite IHs.
      rewrite run_turn_eq. cbn [fst snd run_eeg_data ncols length]. unfold batch_size. lia.
Qed.

End ThreadFacts.

(** ** Runs that do not raise *)

Section QuietRuns.
Context {F : Type} `{Scalar F} `{Numpy F}.
Implicit Types (w : BCIMainWindow F).

Lemma emitted_deliverable (e : Event F) : emitted e -> deliverable e.
Proof. destruct e as [|data|probs|]; cbn; try tauto; lia. Qed.

Lemma deliverable_batch_shaped (e : Event F) : deliverable e -> batch_shaped e.
Proof. destruct e as [|data|probs|]; cbn; tauto. Qed.

(** Every slot but the timer slot returns on what it can take. *)
Lemma handle_deliverable n (e : Event F) w :
  filled n w -> deliverable e -> e <> Timeout -> result (handle e w) = Ok tt.
Proof.
  intros (Hn & Hlen & _) He Hne. destruct e as [|data|probs|]; cbn [handle deliverable] in *.
  - apply toggle_connection_flips.
  - rewrite on_new_eeg_data_ok by lia. reflexivity.
  - destruct probs as [|p0 [|p1 rest]]; cbn [length] in He; [lia|lia|].
    rewrite on_new_inference_calls. reflexivity.
  - congruence.
Qed.

(** A run returns when each of its slots returns from a level window. *)
Lemma run_events_ok (P : Event F -> Prop) :
  (forall e n w, P e -> filled n w -> result (handle e w) = Ok tt) ->
  forall es n w, filled n w -> Forall P es -> result (run_events es w) = Ok tt.
Proof.
  intros Hok. induction es as [|e es IH]; intros n w Hf Hes; [reflexivity|].
  apply Forall_cons in Hes as [He Hes].
  cbn [run_events for_each]. unfold m_bind. fold (run_events es).
  pose proof (Hok e n w He Hf) as Hr.
  destruct (handle_level_or_raise n e w Hf) as [[_ (n' & Hf')]|[(ex & Hx) _]];
    [|congruence].
  destruct (handle e w) as [r w1 c1]; cbn [result window] in *; subst r.
  specialize (IH n' w1 Hf' Hes). destruct (run_events es w1) as [r w2 c2].
  exact IH.
Qed.

(** A click and then what the thread emits: every slot returns. *)
Lemma session_returns (es : list (Event F)) n w :
  filled n w -> Forall emitted es -> result (run_events (Clicked :: es) w) = Ok tt.
Proof.
  intros Hf Hem. apply (run_events_ok (fun e => deliverable e /\ e <> Timeout)) with (n := n).
  - intros e n' w' [Hd Hne] Hf'. eapply handle_deliverable; eassumption.
  - exact Hf.
  - constructor; [split; [exact I|discriminate]|].
    eapply Forall_impl; [exact Hem|]. intros e He. split.
    + apply emitted_deliverable. exact He.
    + intros ->. exact He.
Qed.

Lemma session_batch_shaped (es : list (Event F)) :
  Forall emitted es -> Forall batch_shaped (Clicked :: es).
Proof.
  intros Hem. constructor; [exact I|]. eapply Forall_impl; [exact Hem|].
  intros e He. apply deliverable_batch_shaped, emitted_deliverable. exact He.
Qed.

End QuietRuns.

(** ** What a live tick hands to the widgets *)

Section LiveTick.
Context {F : Type} `{Scalar F} `{Numpy F}.

Lemma curve_calls_app (cs cs' : list (UiCall F)) :
  curve_calls (cs ++ cs') = curve_calls cs ++ curve_calls cs'.
Proof. apply omap_app. Qed.

Lemma curve_calls_curves (t : list F) (bufs : list (deque F)) : forall k,
  curve_calls (imap (fun ch d => SetData (EegCurve (k + ch)) t (items d)) bufs)
  = imap (fun ch d => (k + ch, (t, items d))) bufs.
Proof.
  induction bufs as [|d bufs IH]; intros k; [reflexivity|].
  rewrite !imap_cons. cbn [curve_calls omap list_omap]. f_equal.
  specialize (IH (S k)). unfold curve_calls in IH.
  erewrite (imap_ext _ (fun ch d => SetData (EegCurve (S k + ch)) t (items d)));
    [|intros; cbn; do 2 f_equal; lia].
  rewrite IH. apply imap_ext. intros; cbn. f_equal. lia.
Qed.

(** The loop over the channel curves, call by call. *)
Lemma curves_loop_calls (w w0 : BCIMainWindow F) (time_array : list F) (n : nat) :
  n <= length (eeg_buffers w) ->
  for_each (range n) (fun ch =>
    buf <- of_res (list_getitem (eeg_buffers w) ch) ;;
    ui (SetData (EegCurve ch) time_array (items buf))) w0
  = MkOut (Ok tt) w0
          (imap (fun ch d => SetData (EegCurve (0 + ch)) time_array (items d))
                (take n (eeg_buffers w))).
Proof.
  intros Hlen. induction n as [|n IH]; [reflexivity|].
  destruct (lookup_lt_is_Some_2 (eeg_buffers w) n ltac:(lia)) as [d Hd].
  rewrite range_S, for_each_app. unfold m_bind at 1. rewrite IH by lia.
  cbn [for_each]. unfold m_bind, of_res, list_getitem. rewrite Hd.
  cbn [m_ret ui]. rewrite (take_S_r _ _ _ Hd), imap_app, app_nil_r.
  cbn [imap]. rewrite length_take, Nat.min_l by lia. rewrite Nat.add_0_r. reflexivity.
Qed.

(** On a live tick each channel curve is handed the time axis and the
    items of its buffer, channel by channel. *)
Lemma update_plots_curves (w : BCIMainWindow F) :
  is_connected w = true -> items (time_buffer w) <> [] ->
  n_channels w = length (eeg_buffers w) -> 0 < length (eeg_buffers w) ->
  curve_calls (calls (update_plots w))
  = imap (fun ch d => (ch, (items (time_buffer w), items d))) (eeg_buffers w).
Proof.
  intros Hc Ht Hn Hpos. unfold update_plots, m_bind at 1, get.
  rewrite Hc. destruct (items (time_buffer w)) as [|t0 ts] eqn:Hts; [congruence|].
  cbn [negb orb length Nat.eqb].
  unfold m_bind at 1. rewrite curves_loop_calls by lia.
  rewrite Hn, firstn_all.
  destruct (lookup_lt_is_Some_2 (eeg_buffers w) 0 Hpos) as [buf0 Hb].
  unfold m_bind, of_res, list_getitem. rewrite Hb.
  unfold m_ret at 1. cbv beta iota. unfold update_spectrum.
  destruct (256 <=? length (items buf0)); destruct (to_int _) as [pc|ex];
    unfold ui, m_ret, raise; cbv beta iota; cbn [calls];
    rewrite !curve_calls_app, (curve_calls_curves (t0 :: ts) (eeg_buffers w) 0);
    cbn [curve_calls omap list_omap app]; rewrite ?app_nil_r; reflexivity.
Qed.

Lemma omap_imap_none {A B C : Type} (f : B -> option C) (l : list A) :
  forall g : nat -> A -> B, (forall i a, f (g i a) = None) -> omap f (imap g l) = [].
Proof.
  induction l as [|a l IH]; intros g Hg; [reflexivity|].
  rewrite imap_cons. cbn [omap list_omap]. rewrite Hg. apply IH. intros i b. apply Hg.
Qed.

(** On a live tick the bar graph is handed the stored vector. *)
Lemma update_plots_bars (w : BCIMainWindow F) :
  is_connected w = true -> items (time_buffer w) <> [] ->
  n_channels w <= length (eeg_buffers w) -> 0 < length (eeg_buffers w) ->
  bar_heights (calls (update_plots w)) = Some (inference_probs w).
Proof.
  intros Hc Ht Hn Hpos. unfold update_plots, m_bind at 1, get.
  rewrite Hc. destruct (items (time_buffer w)) as [|t0 ts] eqn:Hts; [congruence|].
  cbn [negb orb length Nat.eqb].
  unfold m_bind at 1. rewrite curves_loop_calls by lia.
  destruct (lookup_lt_is_Some_2 (eeg_buffers w) 0 Hpos) as [buf0 Hb].
  unfold m_bind, of_res, list_getitem. rewrite Hb.
  unfold m_ret at 1. cbv beta iota. unfold update_spectrum.
  destruct (256 <=? length (items buf0)); destruct (to_int _) as [pc|ex];
    unfold ui, m_ret, raise; cbv beta iota; cbn [calls];
    unfold bar_heights; rewrite !omap_app, omap_imap_none by reflexivity;
    reflexivity.
Qed.

(** The stored vector along a run: the last one delivered. *)
Lemma handle_inference_probs (e : Event F) (w : BCIMainWindow F) :
  inference_probs (window (handle e w))
  = match e with NewInference probs => probs | _ => inference_probs w end.
Proof.
  destruct e as [|data|probs|]; cbn [handle].
  - rewrite toggle_connection_window. destruct (negb (is_connected w)); reflexivity.
  - apply on_new_eeg_data_keeps; reflexivity.
  - rewrite on_new_inference_window. reflexivity.
  - rewrite update_plots_read_only. reflexivity.
Qed.

Lemma run_events_inference_probs (es : list (Event F)) : forall w : BCIMainWindow F,
  result (run_events es w) = Ok tt ->
  inference_probs (window (run_events es w))
  = default (inference_probs w) (last (vectors_delivered es)).
Proof.
  induction es as [|e es IH]; intros w; [reflexivity|].
  cbn [run_events for_each]. unfold m_bind. fold (run_events es).
  pose proof (handle_inference_probs e w) as Hp.
  destruct (handle e w) as [[[]|ex] w1 c1]; cbn [window] in Hp; [|discriminate].
  specialize (IH w1). destruct (run_events es w1) as [r w2 c2].
  cbn [result window] in *. intros Hr. rewrite (IH Hr), Hp.
  unfold vectors_delivered.
  destruct e as [|data|probs|]; cbn [omap list_omap]; try reflexivity.
  rewrite last_cons. destruct (last _); reflexivity.
Qed.

End LiveTick.

Section LiveTickExact.
Context `{Numpy Q}.

(** [int(time_counter * 250 / 10)] once [n] samples went in. *)
Lemma packets_of_stamp (n : nat) :
  to_int (div (mul (stamp n) (lit 250)) (lit 10)) = Ok (Z.of_nat n / 10)%Z.
Proof.
  cbn [to_int Q_scalar]. unfold ExactScalar.qtrunc. f_equal.
  set (q := div (mul (stamp n) (lit 250)) (lit 10)).
  assert (Hq : (q == inject_Z (Z.of_nat n) / 10)%Q).
  { subst q. cbn [div mul lit Q_scalar].
    unfold ExactScalar.qdiv, ExactScalar.qmul, ExactScalar.qlit.
    rewrite !Qred_correct, stamp_value. field. }
  clearbody q.
  assert (Hpos : (0 <= Qnum q)%Z).
  { assert (H0 : (0 <= q)%Q).
    { rewrite Hq. apply Qle_shift_div_l; [reflexivity|].
      rewrite Qmult_0_l. rewrite <- (Zle_Qle 0). lia. }
    unfold Qle in H0. cbn [Qnum Qden] in H0. lia. }
  rewrite Z.quot_div_nonneg by (try exact Hpos; reflexivity).
  assert (Hf : (Qnum q / Z.pos (Qden q))%Z = Qfloor q) by (destruct q; reflexivity).
  rewrite Hf, Hq. unfold Qfloor, Qdiv, Qmult, Qinv, inject_Z. cbn.
  rewrite Z.mul_1_r. reflexivity.
Qed.

End LiveTickExact.

(** ** The clock of the thread, exactly *)

Section ThreadClock.
Context `{Trig Q}.

Lemma batch_span_250 (t : DataSimulatorThread Q) :
  sample_rate t = 250%Z -> batch_span t = (1 # 25)%Q.
Proof. unfold batch_span. intros ->. reflexivity. Qed.

Lemma stamp_batch (n : nat) : add (stamp n) (1 # 25)%Q = stamp (n + 10).
Proof.
  cbn [add Q_scalar]. unfold ExactScalar.qadd, stamp. apply Qred_complete.
  rewrite Qred_correct, Nat2Z.inj_add, inject_Z_plus. field.
Qed.

Lemma run_turns_time (draws : list (Draws Q)) : forall (t : DataSimulatorThread Q) n,
  sample_rate t = 250%Z -> time t = stamp n ->
  time (fst (run_turns t draws)) = stamp (n + 10 * length draws).
Proof.
  induction draws as [|d draws IH]; intros t n Hr Ht.
  - cbn. rewrite Nat.add_0_r. exact Ht.
  - rewrite run_turns_cons. cbv zeta. cbn [fst].
    rewrite (IH _ (n + 10)).
    + f_equal. cbn [length]. lia.
    + rewrite run_turn_thread. exact Hr.
    + rewrite run_turn_thread. cbn [time]. rewrite (batch_span_250 t Hr), Ht.
      apply stamp_batch.
Qed.

(** The instants of a batch that starts at sample [n]. *)
Lemma run_instants_grid (t : DataSimulatorThread Q) (n : nat) :
  sample_rate t = 250%Z -> time t = stamp n ->
  Forall2 Qeq (run_instants t)
    (map (fun i => inject_Z (Z.of_nat n) / 250 + inject_Z (Z.of_nat i) / 225)%Q (seq 0 10)).
Proof.
  intros Hr Ht. unfold run_instants. rewrite (batch_span_250 t Hr), Ht.
  pose proof (stamp_value n) as Hs. generalize dependent (stamp n). intros s _ Hs.
  unfold np_linspace, batch_size. cbn [Nat.sub Nat.ltb Nat.leb].
  set (step := div (sub (add s (1 # 25)%Q) s) (lit_nat 9)).
  assert (Hstep : (step == 1 # 225)%Q).
  { subst step. unfold sub, lit_nat. cbn [div add mul lit Q_scalar].
    unfold ExactScalar.qdiv, ExactScalar.qadd, ExactScalar.qmul, ExactScalar.qlit.
    rewrite !Qred_correct. cbn [Z.of_nat Pos.of_succ_nat Pos.succ]. field. }
  assert (Hz : leb step (lit 0) && leb (lit 0) step = false).
  { apply andb_false_intro1. cbn [leb lit Q_scalar].
    unfold ExactScalar.qleb, ExactScalar.qlit.
    destruct (Qle_bool step (Qred 0)) eqn:Hle; [|reflexivity].
    apply Qle_bool_iff in Hle. rewrite Qred_correct, Hstep in Hle.
    exfalso. revert Hle. apply Qlt_not_le. reflexivity. }
  rewrite Hz. clearbody step. cbn [seq map take app].
  unfold lit_nat. cbn [add mul lit Q_scalar].
  unfold ExactScalar.qadd, ExactScalar.qmul, ExactScalar.qlit.
  repeat constructor; rewrite !Qred_correct, ?Hstep, Hs;
    cbn [Z.of_nat Pos.of_succ_nat Pos.succ]; field.
Qed.

End ThreadClock.

(** ** The clocks in any arithmetic *)

Lemma holds_along_spec {A : Type} (f : A -> A) (p : Z -> A -> bool) (n : nat) :
  forall k0 x, holds_along f p k0 x n = true ->
  forall j, j <= n -> p (k0 + Z.of_nat j)%Z (Nat.iter j f x) = true.
Proof.
  induction n as [|n IH]; intros k0 x Hc j Hj; cbn [holds_along] in Hc;
    destruct (p k0 x) eqn:Hp; try discriminate.
  - replace j with 0 by lia. rewrite Z.add_0_r. exact Hp.
  - destruct j as [|j]; [rewrite Z.add_0_r; exact Hp|].
    rewrite Nat.iter_succ_r.
    replace (k0 + Z.of_nat (S j))%Z with (k0 + 1 + Z.of_nat j)%Z by lia.
    apply IH; [exact Hc|lia].
Qed.

Section ClockFacts.
Context {F : Type} `{Scalar F}.

Lemma advance_add (t : F) (a b : nat) : advance t (a + b) = advance (advance t a) b.
Proof. unfold advance. rewrite Nat.add_comm. apply Nat.iter_add. Qed.

Lemma ticks_app (a b : nat) : forall t : F,
  ticks t (a + b) = ticks t a ++ ticks (advance t a) b.
Proof.
  induction a as [|a IH]; intros t; [reflexivity|].
  cbn [Nat.add ticks app]. rewrite IH. unfold advance. rewrite Nat.iter_succ_r. reflexivity.
Qed.

Lemma ticks_lookup (n : nat) : forall (t : F) j,
  j < n -> ticks t n !! j = Some (advance t j).
Proof.
  induction n as [|n IH]; intros t j Hj; [lia|].
  destruct j as [|j]; [reflexivity|].
  cbn [ticks lookup list_lookup]. rewrite IH by lia.
  unfold advance. rewrite Nat.iter_succ_r. reflexivity.
Qed.

Lemma clocked_init : clocked 0 (BCIMainWindow_init (F:=F)).
Proof. split; [apply filled_init|]. split; reflexivity. Qed.

Lemma clocked_ingested (n : nat) (data : ndarray F) (w : BCIMainWindow F) :
  clocked n w -> clocked (n + ncols data) (ingested data w).
Proof.
  intros (Hf & Hc & Hi). split; [apply filled_ingested; exact Hf|].
  destruct Hf as (_ & _ & Hm & Hl & _).
  unfold ingested, ingested_upto. cbn [time_counter time_buffer].
  rewrite Hc, <- advance_add. split; [reflexivity|].
  rewrite deque_extend_items by lia.
  rewrite Hm, Hi, ticks_app.
  rewrite <- drop_app_le by (rewrite ticks_length; lia).
  rewrite drop_drop. f_equal.
  rewrite length_drop, !length_app, !ticks_length. lia.
Qed.

Lemma run_events_clocked `{Numpy F} (es : list (Event F)) : forall n w,
  clocked n w -> Forall batch_shaped es ->
  let o := run_events es w in
  exists m, m <= samples_delivered es /\
            (result o = Ok tt -> m = samples_delivered es) /\
            clocked (n + m) (window o).
Proof.
  apply (run_events_invariant clocked).
  - intros n w data Ht Hrows. pose proof (clocked_ingested n data w Ht) as Ht'.
    destruct Ht as ((Hn & Hlen & _) & _).
    rewrite on_new_eeg_data_ok by lia. split; [reflexivity|exact Ht'].
  - intros n w w' (Hf & Hc & Hi) Hn Hb Ht Htc. split; [|split].
    + exact (filled_same_buffers n w w' Hn Hb Ht Hf).
    + rewrite Htc. exact Hc.
    + rewrite Ht. exact Hi.
Qed.

(** Neighbours on the time axis of a clocked window. *)
Lemma clocked_neighbours (n : nat) (w : BCIMainWindow F) :
  clocked n w ->
  forall j t t', items (time_buffer w) !! j = Some t ->
                 items (time_buffer w) !! S j = Some t' -> t' = add t period.
Proof.
  intros (_ & _ & Hi) j t t'. rewrite Hi, !lookup_drop.
  generalize (n - Nat.min 1000 n). intros a Ht Ht'.
  assert (Hlt : a + S j < n).
  { apply lookup_lt_Some in Ht'. rewrite ticks_length in Ht'. exact Ht'. }
  rewrite ticks_lookup in Ht by lia. rewrite ticks_lookup in Ht' by lia.
  replace (a + S j) with (S (a + j)) in Ht' by lia.
  injection Ht as <-. injection Ht' as <-. reflexivity.
Qed.

Lemma clocked_first (n : nat) (w : BCIMainWindow F) :
  clocked n w -> n <= 1000 ->
  forall t, items (time_buffer w) !! 0 = Some t -> t = lit 0.
Proof.
  intros (_ & _ & Hi) Hn t. rewrite Hi, lookup_drop.
  replace (n - Nat.min 1000 n) with 0 by lia. cbn [Nat.add]. intros Ht.
  assert (Hlt : 0 < n) by (apply lookup_lt_Some in Ht; rewrite ticks_length in Ht; exact Ht).
  rewrite ticks_lookup in Ht by exact Hlt. injection Ht as <-. reflexivity.
Qed.

End ClockFacts.

(** In exact arithmetic the counter is [n/250]. *)
Lemma advance_exact (n : nat) : advance (lit 0) n = stamp n.
Proof. rewrite stamp_0. apply (advance_stamp n 0). Qed.

(** ** The thread clock in any arithmetic *)

Section ThreadClockFacts.
Context {F : Type} `{Scalar F} `{Trig F}.

Lemma run_turns_rate (draws : list (Draws F)) : forall t : DataSimulatorThread F,
  sample_rate (fst (run_turns t draws)) = sample_rate t.
Proof.
  induction draws as [|d draws IH]; intros t; [reflexivity|].
  rewrite run_turns_cons. cbv zeta. cbn [fst]. rewrite IH, run_turn_thread. reflexivity.
Qed.

Lemma run_turns_clock (draws : list (Draws F)) : forall t : DataSimulatorThread F,
  time (fst (run_turns t draws))
  = Nat.iter (length draws) (fun c => add c (batch_span t)) (time t).
Proof.
  induction draws as [|d draws IH]; intros t; [reflexivity|].
  rewrite run_turns_cons. cbv zeta. cbn [fst length]. rewrite IH, run_turn_thread.
  rewrite Nat.iter_succ_r. reflexivity.
Qed.

(** The thread of a session: its clock and its instants. *)
Lemma session_thread (draws : list (Draws F)) :
  let t := fst (run_turns (thread_start DataSimulatorThread_init) draws) in
  time t = thread_clock (length draws) /\
  run_instants t
  = np_linspace (thread_clock (length draws))
      (add (thread_clock (length draws)) (div (lit_nat batch_size) (lit (inject_Z 250))))
      batch_size.
Proof.
  cbv zeta.
  pose proof (run_turns_clock draws (thread_start DataSimulatorThread_init)) as Hc.
  pose proof (run_turns_rate draws (thread_start DataSimulatorThread_init)) as Hr.
  split; [exact Hc|]. unfold run_instants, batch_span. rewrite Hr, Hc. reflexivity.
Qed.

Lemma run_instants_ends (t : DataSimulatorThread F) :
  length (run_instants t) = 10 /\
  last (run_instants t) = Some (time (run_advance_time t)).
Proof.
  unfold run_instants, np_linspace, batch_size. cbn [Nat.ltb Nat.leb Nat.sub].
  split; [|rewrite last_snoc; reflexivity].
  match goal with |- context [if ?c then _ else _] => destruct c end; reflexivity.
Qed.

End ThreadClockFacts.

Lemma clock_pair {F : Type} `{Scalar F} (k : nat) :
  Nat.iter k (fun cw : F * F =>
                (add (fst cw) (div (lit_nat batch_size) (lit (inject_Z 250))),
                 advance (snd cw) 10))
           (lit 0, lit 0)
  = (thread_clock k, advance (lit 0) (10 * k)).
Proof.
  induction k as [|k IH]; [reflexivity|].
  cbn [Nat.iter nat_rect]. unfold Nat.iter in IH. rewrite IH. cbn [fst snd].
  f_equal. rewrite <- advance_add. f_equal. lia.
Qed.

(** ** What makes a slot raise *)

Section Raises.
Context {F : Type} `{Scalar F} `{Numpy F}.

Lemma handle_accepted n (e : Event F) (w : BCIMainWindow F) :
  filled n w -> e <> Timeout -> accepted e -> result (handle e w) = Ok tt.
Proof.
  intros (Hn & Hlen & _) Hne He. destruct e as [|data|probs|]; cbn [handle accepted] in *.
  - apply toggle_connection_flips.
  - destruct He as [He|He].
    + rewrite on_new_eeg_data_ok by lia. reflexivity.
    + rewrite on_new_eeg_data_empty by exact He. reflexivity.
  - destruct probs as [|p0 [|p1 rest]]; cbn [length] in He; [lia|lia|].
    rewrite on_new_inference_calls. reflexivity.
  - congruence.
Qed.

Lemma handle_refused n (e : Event F) (w : BCIMainWindow F) :
  filled n w -> ~ accepted e -> result (handle e w) = Raise IndexError.
Proof.
  intros (Hn & Hlen & _) He. destruct e as [|data|probs|]; cbn [handle accepted] in *;
    try tauto.
  - rewrite on_new_eeg_data_raise by lia. reflexivity.
  - destruct probs as [|p0 [|p1 rest]]; [reflexivity|reflexivity|].
    cbn [length] in He. lia.
Qed.

Lemma accepted_dec (e : Event F) : accepted e \/ ~ accepted e.
Proof.
  destruct e as [|data|probs|]; cbn [accepted]; try (left; exact I).
  - destruct (Nat.le_gt_cases 8 (nrows data)); [left; left; assumption|].
    destruct (Nat.eq_0_gt_0_cases (ncols data)); [left; right; assumption|].
    right. lia.
  - destruct (Nat.le_gt_cases 2 (length probs)); [left; assumption|right; lia].
Qed.

(** Without ticks, a run from a level window returns exactly when every
    event is accepted, and otherwise raises [IndexError]. *)
Lemma run_events_accepted (es : list (Event F)) : forall n w,
  filled n w -> Forall (fun e => e <> Timeout) es ->
  (result (run_events es w) = Ok tt <-> Forall accepted es) /\
  (result (run_events es w) = Ok tt \/ result (run_events es w) = Raise IndexError).
Proof.
  induction es as [|e es IH]; intros n w Hf Hes.
  - split; [split; [constructor|reflexivity]|left; reflexivity].
  - apply Forall_cons in Hes as [Hne Hes].
    cbn [run_events for_each]. unfold m_bind. fold (run_events es).
    destruct (accepted_dec e) as [He|He].
    + pose proof (handle_accepted n e w Hf Hne He) as Hr.
      destruct (handle_level_or_raise n e w Hf) as [[_ (n' & Hf')]|[(ex & Hx) _]];
        [|congruence].
      destruct (handle e w) as [r w1 c1]; cbn [result window] in *; subst r.
      destruct (IH n' w1 Hf' Hes) as [Hiff Hor].
      destruct (run_events es w1) as [r w2 c2]. cbn [result] in *.
      split; [|exact Hor]. rewrite Forall_cons. tauto.
    + pose proof (handle_refused n e w Hf He) as Hr.
      destruct (handle e w) as [r w1 c1]; cbn [result] in *; subst r.
      split; [|right; reflexivity]. rewrite Forall_cons.
      split; [discriminate|tauto].
Qed.

(** On a live tick the packet label shows the truncated count. *)
Lemma update_plots_packet_count (w : BCIMainWindow F) :
  is_connected w = true -> items (time_buffer w) <> [] ->
  n_channels w <= length (eeg_buffers w) -> 0 < length (eeg_buffers w) ->
  forall count, packet_count (time_counter w) = Ok count ->
    shown_packets (calls (update_plots w)) = Some count.
Proof.
  intros Hc Ht Hn Hpos count Hcount. unfold update_plots, m_bind at 1, get.
  rewrite Hc. destruct (items (time_buffer w)) as [|t0 ts] eqn:Hts; [congruence|].
  cbn [negb orb length Nat.eqb].
  unfold m_bind at 1. rewrite curves_loop_calls by lia.
  destruct (lookup_lt_is_Some_2 (eeg_buffers w) 0 Hpos) as [buf0 Hb].
  unfold m_bind, of_res, list_getitem. rewrite Hb.
  unfold m_ret at 1. cbv beta iota. unfold update_spectrum.
  unfold packet_count in Hcount. rewrite Hcount.
  destruct (256 <=? length (items buf0));
    unfold ui, m_ret; cbv beta iota; cbn [calls];
    unfold shown_packets; rewrite !omap_app, omap_imap_none by reflexivity;
    reflexivity.
Qed.

End Raises.

(** * The claims of the specification *)

(** ** C1 *)

(** C1.  From a fresh window, after any sequence of events whose batches
    have a row for each of the eight channels, the eight channel buffers
    and the time axis all hold [min 1000 n] elements, [n] the number of
    samples delivered so far; [n] is the total of the sequence whenever the
    run went through, and a sequence of batches alone always goes
    through. *)
Theorem C1_buffers_hold_min_capacity_total
  {F : Type} `{Scalar F} `{Numpy F} (es : list (Event F)) :
  Forall batch_shaped es ->
  let o := run_events es BCIMainWindow_init in
  (exists n,
      n <= samples_delivered es /\
      (result o = Ok tt -> n = samples_delivered es) /\
      length (eeg_buffers (window o)) = 8 /\
      Forall (fun d => length (items d) = Nat.min 1000 n) (eeg_buffers (window o)) /\
      length (items (time_buffer (window o))) = Nat.min 1000 n) /\
  ((forall e, e ∈ es -> exists data, e = NewData data) -> result o = Ok tt).
Proof.
  intros Hes o. split.
  - destruct (run_events_filled es 0 _ filled_init Hes) as (m & Hle & Hall & Hf).
    exists m. destruct Hf as (_ & Hlen & _ & Htl & Hbufs).
    repeat split; try assumption.
    eapply Forall_impl; [exact Hbufs|]. intros d [_ Hd]. exact Hd.
  - intros Hdata.
    assert (Hmap : exists batches, es = map NewData batches /\
                                   Forall (fun data => 8 <= nrows data) batches).
    { clear o. induction es as [|e es IH]; [exists []; split; [reflexivity|constructor]|].
      apply Forall_cons in Hes as [He Hes].
      destruct (Hdata e ltac:(left)) as [data ->].
      destruct (IH Hes) as (batches & -> & Hb).
      - intros e' He'. apply Hdata. right. exact He'.
      - exists (data :: batches). split; [reflexivity|]. constructor; assumption. }
    destruct Hmap as (batches & -> & Hb).
    exact (run_batches_ok batches 0 _ filled_init Hb).
Qed.

Lemma C1_witness :
  let es := [Clicked; NewData (ramp (F:=Q) 8 10); Timeout; NewData (ramp 8 10)] in
  Forall batch_shaped es /\
  length (items (time_buffer (window (run_events es BCIMainWindow_init)))) = 20.
Proof.
  intros es.
  assert (Hs : Forall batch_shaped es) by (repeat constructor; cbn; lia).
  split; [exact Hs|].
  destruct (C1_buffers_hold_min_capacity_total es Hs) as [(n & _ & Hall & _ & _ & Ht) _].
  rewrite Ht, (Hall ltac:(vm_compute; reflexivity)). reflexivity.
Defined.

(** ** C2 *)

(** C2, as the code has it.  [on_new_eeg_data] checks nothing about the
    batch.  With at least eight rows the batch goes in whole, whatever its
    values (finite or not) and however many rows it has beyond the eighth.
    With fewer than eight rows and at least one column the slot raises
    [IndexError] at the first sample, and by then the time axis holds one
    more timestamp, the counter has advanced, and each row that exists has
    put its first sample in its buffer: the window is not what it was.  A
    batch with no column changes nothing. *)
Theorem C2_batches_are_not_validated
  {F : Type} `{Scalar F} (data : ndarray F) (w : BCIMainWindow F) :
  n_channels w = 8 -> length (eeg_buffers w) = 8 ->
  let o := on_new_eeg_data data w in
  (8 <= nrows data -> result o = Ok tt /\ window o = ingested data w) /\
  (nrows data < 8 -> 0 < ncols data ->
     result o = Raise IndexError /\
     time_buffer (window o) = deque_append (time_buffer w) (time_counter w) /\
     time_counter (window o) = add (time_counter w) (div (lit 1) (lit 250)) /\
     (forall ch d, eeg_buffers w !! ch = Some d ->
        eeg_buffers (window o) !! ch
        = Some (if ch <? nrows data then deque_append d (item data ch 0) else d))) /\
  (ncols data = 0 -> result o = Ok tt /\ window o = w).
Proof.
  intros Hn Hlen o. subst o. split; [|split].
  - intros Hrows. rewrite on_new_eeg_data_ok by lia. split; reflexivity.
  - intros Hrows Hcols. rewrite on_new_eeg_data_raise by lia.
    cbn [result window]. split; [reflexivity|]. split; [reflexivity|].
    split; [reflexivity|].
    intros ch d Hd. unfold torn. cbn [eeg_buffers set_eeg_buffers].
    apply channels_after_lookup_Some. exact Hd.
  - intros Hcols. rewrite on_new_eeg_data_empty by exact Hcols. split; reflexivity.
Qed.

(** A batch of seven rows is not turned away cleanly, and a batch holding a
    NaN is not turned away at all. *)
Lemma C2_counterexample :
  (let data := ramp (F:=float) 7 1 in
   let o := on_new_eeg_data data BCIMainWindow_init in
   nrows data <> 8 /\
   result o = Raise IndexError /\
   window o <> BCIMainWindow_init /\
   length (items (time_buffer (window o))) = 1 /\
   (length ∘ items) <$> eeg_buffers (window o) = [1; 1; 1; 1; 1; 1; 1; 0]) /\
  (let data := NdArray 8 1 (fun _ _ => PrimFloat.nan) in
   let o := on_new_eeg_data data BCIMainWindow_init in
   isfinite (item data 0 0) = false /\
   result o = Ok tt /\
   window o <> BCIMainWindow_init /\
   items <$> eeg_buffers (window o) !! 0 = Some [PrimFloat.nan]).
Proof.
  split; repeat split; vm_compute; congruence.
Qed.

Lemma C2_witness :
  result (on_new_eeg_data (ramp (F:=float) 7 1) BCIMainWindow_init) = Raise IndexError.
Proof.
  apply (C2_batches_are_not_validated (ramp 7 1) BCIMainWindow_init);
    [reflexivity|reflexivity|cbn; lia|cbn; lia].
Defined.

(** ** C3 *)

(** C3, as the code has it.  In a connected window [toggle_connection]
    disconnects: it returns, stops the data thread and clears
    [is_connected], and leaves every channel buffer, the time axis and the
    time counter as they were.  Called once more it does not disconnect
    again: it takes the other branch and starts a new thread, again without
    touching the buffers, so what was buffered is still there in the next
    session. *)
Theorem C3_disconnect_stops_thread_keeps_buffers
  {F : Type} `{Scalar F} (w : BCIMainWindow F) :
  is_connected w = true ->
  let o1 := toggle_connection w in
  let o2 := toggle_connection (window o1) in
  (result o1 = Ok tt /\
   is_connected (window o1) = false /\
   data_thread (window o1) = thread_stop <$> data_thread w /\
   eeg_buffers (window o1) = eeg_buffers w /\
   time_buffer (window o1) = time_buffer w /\
   time_counter (window o1) = time_counter w) /\
  (result o2 = Ok tt /\
   is_connected (window o2) = true /\
   data_thread (window o2) = Some (thread_start DataSimulatorThread_init) /\
   eeg_buffers (window o2) = eeg_buffers w /\
   time_buffer (window o2) = time_buffer w /\
   time_counter (window o2) = time_counter w).
Proof.
  intros Hc o1 o2. subst o1 o2.
  rewrite (toggle_connection_window w), Hc. cbn [negb result window].
  rewrite toggle_connection_window. cbn [is_connected set_is_connected negb result window].
  repeat split.
Qed.

(** After a disconnect the buffers still hold the ten samples of the
    session, and a second call leaves the window connected again. *)
Lemma C3_counterexample :
  let w0 := window (run_events [Clicked; NewData (ramp (F:=Q) 8 10)] BCIMainWindow_init) in
  let w1 := window (toggle_connection w0) in
  let w2 := window (toggle_connection w1) in
  is_connected w0 = true /\
  length (items (time_buffer w1)) = 10 /\
  (length ∘ items) <$> eeg_buffers w1 = [10; 10; 10; 10; 10; 10; 10; 10] /\
  is_connected w1 = false /\ is_connected w2 = true /\ w2 <> w1.
Proof.
  repeat split; try (vm_compute; reflexivity).
  intros Heq. apply (f_equal is_connected) in Heq. vm_compute in Heq. discriminate.
Qed.

Lemma C3_witness :
  let w0 := window (run_events [Clicked; NewData (ramp (F:=Q) 8 10)] BCIMainWindow_init) in
  is_connected (window (toggle_connection w0)) = false /\
  time_buffer (window (toggle_connection w0)) = time_buffer w0.
Proof.
  intros w0.
  destruct (C3_disconnect_stops_thread_keeps_buffers w0 eq_refl)
    as [(_ & Hc & _ & _ & Ht & _) _].
  split; [exact Hc|exact Ht].
Defined.

(** ** C4 *)

(** C4, as the code has it.  For a vector of two probabilities the
    indicator shows class 0 (left hand) exactly when [probs[0] > probs[1]]
    holds, and class 1 (right hand) otherwise, in every arithmetic.  Over
    exact numbers the class shown is therefore always one of largest
    probability, and on a tie it is the second one: class 1, right hand. *)
Theorem C4_label_class0_iff_strictly_greater :
  (forall (F : Type) (S : Scalar F) (p0 p1 : F) (w : BCIMainWindow F),
     let o := on_new_inference [p0; p1] w in
     result o = Ok tt /\
     shown_class (calls o) = Some (if ltb p1 p0 then 0 else 1)) /\
  (forall (p0 p1 : Q) (w : BCIMainWindow Q),
     let o := on_new_inference [p0; p1] w in
     exists c,
       shown_class (calls o) = Some c /\
       (c = 0 <-> (p1 < p0)%Q) /\
       (c = 1 <-> (p0 <= p1)%Q) /\
       ((p0 == p1)%Q -> c = 1) /\
       exists p, [p0; p1] !! c = Some p /\ (p0 <= p)%Q /\ (p1 <= p)%Q).
Proof.
  split.
  - intros F S p0 p1 w o. subst o. split; [|apply on_new_inference_class].
    rewrite on_new_inference_pair. reflexivity.
  - intros p0 p1 w o. subst o. rewrite on_new_inference_class.
    destruct (ltb p1 p0) eqn:Hlt.
    + apply qltb_true in Hlt. exists 0. split; [reflexivity|].
      split; [split; [intros _; exact Hlt|reflexivity]|].
      split; [split; [discriminate|intros Hle; lra]|].
      split; [intros Heq; lra|].
      exists p0. split; [reflexivity|]. split; lra.
    + apply qltb_false in Hlt. exists 1. split; [reflexivity|].
      split; [split; [discriminate|intros Hgt; lra]|].
      split; [split; [intros _; exact Hlt|reflexivity]|].
      split; [reflexivity|].
      exists p1. split; [reflexivity|]. split; lra.
Qed.

(** On the tie [0.5, 0.5] the indicator shows the right hand. *)
Lemma C4_counterexample :
  let probs := [0.5; 0.5]%float in
  let o := on_new_inference probs BCIMainWindow_init in
  PrimFloat.eqb 0.5 0.5 = true /\
  result o = Ok tt /\
  shown_class (calls o) = Some 1 /\
  In (SetText ClassIndicator (Lit "右手 →")) (calls o).
Proof. repeat split; try (vm_compute; reflexivity). left. reflexivity. Qed.

Lemma C4_witness :
  shown_class (calls (on_new_inference [1 # 2; 1 # 2]%Q BCIMainWindow_init)) = Some 1.
Proof.
  destruct C4_label_class0_iff_strictly_greater as [_ Hq].
  destruct (Hq (1 # 2)%Q (1 # 2)%Q BCIMainWindow_init) as (c & Hc & _ & _ & Htie & _).
  rewrite Hc. f_equal. apply Htie. reflexivity.
Defined.

(** ** C5 *)

(** C5, as the code has it.  A tick hands a spectrum to the spectrum
    curve exactly when a session is connected, the time axis is not empty
    and channel 0 holds at least 256 samples; otherwise it hands none, and
    it returns without raising either way.  The spectrum handed over is
    computed from what channel 0 holds at that tick and nothing else:
    [20 * log10(|rfft(last 256 samples * hanning(256))| + 1e-10)] on the
    52 frequency bins that lie in [0, 50] Hz. *)
Theorem C5_spectrum_when_connected_and_256_samples
  `{Numpy Q} (w : BCIMainWindow Q) (buf0 : deque Q) :
  n_channels w <= length (eeg_buffers w) -> eeg_buffers w !! 0 = Some buf0 ->
  let o := update_plots w in
  let live := is_connected w = true /\ items (time_buffer w) <> [] in
  result o = Ok tt /\
  (shown_spectrum (calls o) <> None <-> live /\ 256 <= length (items buf0)) /\
  (live -> 256 <= length (items buf0) ->
   shown_spectrum (calls o) = Some (spectral_frame (items buf0))) /\
  (spectral_frame (items buf0)).1
    = List.filter (fun f : Q => leb f (lit 50)) (rfftfreq 256 (div (lit 1) (lit 250))) /\
  Forall (fun f : Q => (0 <= f)%Q /\ (f <= 50)%Q) (spectral_frame (items buf0)).1.
Proof.
  intros Hn Hb o live. subst o live.
  assert (Hidle : ~ (is_connected w = true /\ items (time_buffer w) <> []) ->
                  update_plots w = MkOut (Ok tt) w []).
  { intros Hnot. apply update_plots_idle.
    destruct (is_connected w); [right|left; reflexivity].
    destruct (items (time_buffer w)); [reflexivity|].
    exfalso. apply Hnot. split; [reflexivity|discriminate]. }
  assert (Hdec : (is_connected w = true /\ items (time_buffer w) <> []) \/
                 ~ (is_connected w = true /\ items (time_buffer w) <> [])).
  { destruct (is_connected w); [|right; intros [? _]; discriminate].
    destruct (items (time_buffer w)); [right; intros [_ ?]; congruence|].
    left. split; [reflexivity|discriminate]. }
  split; [|split; [|split; [|split]]].
  - destruct Hdec as [[Hc Ht]|Hnot].
    + apply (update_plots_spectrum w buf0 Hc Ht Hn Hb).
    + rewrite (Hidle Hnot). reflexivity.
  - destruct Hdec as [[Hc Ht]|Hnot].
    + destruct (update_plots_spectrum w buf0 Hc Ht Hn Hb) as [_ ->].
      destruct (Nat.le_gt_cases 256 (length (items buf0))) as [Hge|Hlt].
      * rewrite update_spectrum_ready by exact Hge.
        generalize (spectral_frame (items buf0)). intros [fx fy].
        split; [intros _; auto|discriminate].
      * rewrite update_spectrum_not_ready by exact Hlt. cbn.
        split; [congruence|intros [_ Hge]; lia].
    + rewrite (Hidle Hnot). cbn. split; [congruence|intros [Hl _]; contradiction].
  - intros [Hc Ht] Hge.
    destruct (update_plots_spectrum w buf0 Hc Ht Hn Hb) as [_ ->].
    rewrite update_spectrum_ready by exact Hge.
    generalize (spectral_frame (items buf0)). intros [fx fy]. reflexivity.
  - vm_compute. reflexivity.
  - unfold spectral_frame. cbn [fst].
    apply Forall_forall. intros f Hf. apply list_elem_of_In in Hf.
    apply in_map_iff in Hf as (k & <- & Hk). apply in_seq in Hk.
    rewrite Qred_correct.
    assert (H0 : (0 <= inject_Z (Z.of_nat k))%Q) by (rewrite <- (Zle_Qle 0); lia).
    assert (H51 : (inject_Z (Z.of_nat k) <= 51)%Q) by (rewrite <- (Zle_Qle _ 51); lia).
    split; lra.
Qed.

(** With the session closed a tick hands over no spectrum, 256 samples
    in channel 0 or not. *)
Lemma C5_counterexample :
  is_connected closed_256 = false /\
  (length ∘ items) <$> eeg_buffers closed_256 !! 0 = Some 256 /\
  update_plots closed_256 = MkOut (Ok tt) closed_256 [] /\
  shown_spectrum (calls (update_plots closed_256)) = None.
Proof.
  assert (Hc : is_connected closed_256 = false) by (vm_compute; reflexivity).
  split; [exact Hc|]. split; [vm_compute; reflexivity|].
  rewrite update_plots_idle by (left; exact Hc). split; reflexivity.
Qed.

Lemma C5_witness : shown_spectrum (calls (update_plots session_256)) <> None.
Proof.
  assert (Hb : exists buf0, eeg_buffers session_256 !! 0 = Some buf0 /\
                            256 <= length (items buf0)).
  { eexists. split; [vm_compute; reflexivity|]. vm_compute. reflexivity. }
  destruct Hb as (buf0 & Hb & Hlen).
  assert (Hn : n_channels session_256 <= length (eeg_buffers session_256))
    by (vm_compute; reflexivity).
  destruct (C5_spectrum_when_connected_and_256_samples session_256 buf0 Hn Hb)
    as (_ & Hiff & _).
  apply Hiff. split; [|exact Hlen].
  split; [vm_compute; reflexivity|vm_compute; discriminate].
Defined.


(** ** C6 *)

(** C6.  In exact arithmetic, whatever the two raw values, the vector left
    by lines 77-79 of [run] (each value clipped into [0.05, 0.95], then
    divided by the sum of the clipped values) has two components, they sum
    to 1, and each lies in [0.05, 0.95]. *)
Theorem C6_clip_then_normalize_sums_to_one (left_prob right_prob : Q) :
  exists a b : Q,
    normalize_probs left_prob right_prob = [a; b] /\
    (a + b == 1)%Q /\
    (5 # 100 <= a)%Q /\ (a <= 95 # 100)%Q /\
    (5 # 100 <= b)%Q /\ (b <= 95 # 100)%Q.
Proof.
  rewrite normalize_probs_exact.
  pose proof (clip_unit_range left_prob) as Hl.
  pose proof (clip_unit_range right_prob) as Hr.
  set (a := clip_unit left_prob) in *. set (b := clip_unit right_prob) in *.
  eexists _, _. split; [reflexivity|].
  rewrite !Qred_correct.
  destruct (share_range a b Hl Hr) as [Ha1 Ha2].
  destruct (share_range b a Hr Hl) as [Hb1 Hb2].
  assert (Hba : (b + a == a + b)%Q) by ring.
  rewrite Hba in Hb1, Hb2.
  repeat split; try lra.
  field. lra.
Qed.

(** ** C7 *)

(** C7, as the code has it.  For every sample the slot appends the current
    [time_counter] to the time axis and then adds [1/250] to it, the period
    it assumes for every batch (a batch carries no rate).  So, in any
    arithmetic, along any run of events from a fresh window whose batches
    have their eight rows, with [n] the number of samples delivered so
    far: the counter is 0 advanced [n] times by [1/250], the time axis
    holds the last [min 1000 n] of the values the counter went through, in
    order, each value is the sum, as the arithmetic computes it, of the
    value before it and [1/250], and the first value is 0 for the first
    sample put into the window, as long as it has not been evicted.  The
    counter is never reset, whatever the connection does in between.

    In exact arithmetic value number [k] is [k/250]: neighbours differ by
    exactly [1/250] and increase.  In binary64 each sum is rounded: over
    the first 100000 samples the values increase strictly and stay within
    [1e-9] of [k/250], but they are not [k/250]: after 10 samples the
    counter is 0.040000000000000008, above [10/250 = 0.04], and the
    difference between values 9 and 8 is above [1/250]. *)
Theorem C7_time_axis_steps_by_fixed_period :
  (forall (F : Type) (Sc : Scalar F) (Np : Numpy F) (es : list (Event F)),
     Forall batch_shaped es ->
     let o := run_events es BCIMainWindow_init in
     let axis := items (time_buffer (window o)) in
     exists n,
       n <= samples_delivered es /\
       (result o = Ok tt -> n = samples_delivered es) /\
       time_counter (window o) = advance (lit 0) n /\
       axis = drop (n - Nat.min 1000 n) (ticks (lit 0) n) /\
       (forall j t t', axis !! j = Some t -> axis !! (S j) = Some t' ->
          t' = add t period) /\
       (n <= 1000 -> forall t, axis !! 0 = Some t -> t = lit 0)) /\
  (forall n : nat,
     advance (F:=Q) (lit 0) n = stamp n /\
     ticks (F:=Q) (lit 0) n = map stamp (seq 0 n) /\
     (stamp n == inject_Z (Z.of_nat n) / 250)%Q) /\
  (forall t : Q, (add t period - t == 1 # 250)%Q /\ (t < add t period)%Q) /\
  (advance (F:=float) (lit 0) 10 = 0.040000000000000008%float /\
   lit (F:=float) (10 # 250) = 0.04%float /\
   ltb (lit (F:=float) (10 # 250)) (advance (lit 0) 10) = true /\
   ltb (period (F:=float)) (sub (advance (lit 0) 9) (advance (lit 0) 8)) = true) /\
  (forall k, k <= 100 * 1000 ->
     let t := advance (F:=float) (lit 0) k in
     ltb t (add t period) = true /\
     near (lit (1 # 1000000000)) t (div (lit_nat k) (lit 250)) = true).
Proof.
  split; [|split; [|split; [|split]]].
  - intros F Sc Np es Hes o axis.
    destruct (run_events_clocked es 0 _ clocked_init Hes) as (n & Hle & Hall & Hc).
    fold o in Hall, Hc. cbn [Nat.add] in Hc. exists n.
    split; [exact Hle|]. split; [exact Hall|].
    pose proof (clocked_neighbours n _ Hc) as Hn.
    pose proof (clocked_first n _ Hc) as H0.
    destruct Hc as (_ & Hc & Hi).
    split; [exact Hc|]. split; [exact Hi|]. split; [exact Hn|exact H0].
  - intros n. split; [apply advance_exact|]. split; [|apply stamp_value].
    rewrite stamp_0. apply ticks_stamp.
  - intros t. change (add t period) with (Qred (t + Qred (Qred 1 / Qred 250))).
    rewrite !Qred_correct. split; [field|].
    apply Qlt_minus_iff. ring_simplify. reflexivity.
  - repeat split; vm_compute; reflexivity.
  - intros k Hk.
    assert (Hall : holds_along (fun t : float => add t period)
              (fun z t => ltb t (add t period)
                          && near (lit (1 # 1000000000)) t
                                  (div (lit (inject_Z z)) (lit 250)))
              0 (lit 0) (100 * 1000) = true) by (vm_compute; reflexivity).
    pose proof (holds_along_spec _ _ _ _ _ Hall k Hk) as Hp.
    cbn beta in Hp. apply andb_prop in Hp. exact Hp.
Qed.

(** Two things the code does not do.  The step between two timestamps is
    1/250 whatever rate one has in mind, so it is not [1/sample_rate] for
    [sample_rate = 500]; and the first sample of a second session is
    stamped where the first session stopped, not 0. *)
Lemma C7_counterexample :
  (let axis := items (time_buffer (window (on_new_eeg_data (ramp (F:=Q) 8 2)
                                             BCIMainWindow_init))) in
   axis = [0; 1 # 250]%Q /\
   ~ (forall sample_rate : Q, (0 < sample_rate)%Q ->
        forall t0 t1, axis = [t0; t1] -> (t1 - t0 == 1 / sample_rate)%Q)) /\
  (let w := window (run_events [Clicked; NewData (ramp (F:=Q) 8 10); Clicked; Clicked]
                               BCIMainWindow_init) in
   let axis := items (time_buffer (window (on_new_eeg_data (ramp 8 1) w))) in
   is_connected w = true /\
   data_thread w = Some (thread_start DataSimulatorThread_init) /\
   last axis = Some (1 # 25)%Q /\ ~ (1 # 25 == 0)%Q).
Proof.
  split.
  - split; [vm_compute; reflexivity|].
    intros Hrate.
    specialize (Hrate 500%Q eq_refl 0%Q (1 # 250)%Q).
    assert (Hax : items (time_buffer (window (on_new_eeg_data (ramp (F:=Q) 8 2)
                     BCIMainWindow_init))) = [0; 1 # 250]%Q) by (vm_compute; reflexivity).
    specialize (Hrate Hax). vm_compute in Hrate. discriminate.
  - repeat split; try (vm_compute; reflexivity). intros Heq. vm_compute in Heq. discriminate.
Qed.

Lemma C7_witness :
  time_counter (window (run_events (F:=float) [Clicked; NewData (ramp 8 10)]
                                   BCIMainWindow_init)) = 0.040000000000000008%float.
Proof.
  assert (Hs : Forall batch_shaped [Clicked; NewData (ramp (F:=float) 8 10)])
    by (repeat constructor; cbn; lia).
  destruct C7_time_axis_steps_by_fixed_period as (Hgen & _ & _ & (H10 & _) & _).
  destruct (Hgen float _ _ _ Hs) as (n & _ & Hall & Hc & _).
  rewrite Hc, (Hall eq_refl). exact H10.
Defined.

(** ** C8 *)

(** C8, as the code has it.  The clamp is done by the source, not by the
    slot.  The raw pair (1.0, 0.0) leaves [DataSimulatorThread.run] as
    [0.95, 0.05]: the clip gives [0.95, 0.05], whose sum is 1, and the
    division changes nothing.  [on_new_inference] stores whatever vector it
    receives as it receives it; receiving that one it stores [0.95, 0.05],
    shows class 0 and a confidence of [max(probs) * 100 = 95.0].  So it is
    in exact arithmetic and so it is in binary64. *)
Theorem C8_source_clamps_then_slot_stores :
  (forall (F : Type) (S : Scalar F) (probs : list F) (w : BCIMainWindow F),
     inference_probs (window (on_new_inference probs w)) = probs) /\
  (np_clip [1; 0]%Q (lit (5 # 100)) (lit (95 # 100)) = [19 # 20; 1 # 20]%Q /\
   normalize_probs 1%Q 0%Q = [19 # 20; 1 # 20]%Q /\
   forall w : BCIMainWindow Q,
     let o := emit_new_inference 1%Q 0%Q w in
     result o = Ok tt /\
     inference_probs (window o) = [19 # 20; 1 # 20]%Q /\
     shown_class (calls o) = Some 0 /\
     shown_confidence (calls o) = Some 95%Q) /\
  (np_clip [1; 0]%float (lit (5 # 100)) (lit (95 # 100)) = [0.95; 0.05]%float /\
   normalize_probs 1%float 0%float = [0.95; 0.05]%float /\
   forall w : BCIMainWindow float,
     let o := emit_new_inference 1%float 0%float w in
     result o = Ok tt /\
     inference_probs (window o) = [0.95; 0.05]%float /\
     shown_class (calls o) = Some 0 /\
     shown_confidence (calls o) = Some 95%float).
Proof.
  split; [intros F S probs w; rewrite on_new_inference_window; reflexivity|].
  split; (split; [vm_compute; reflexivity|]); (split; [vm_compute; reflexivity|]).
  - intros w o. subst o. unfold emit_new_inference.
    replace (normalize_probs 1%Q 0%Q) with [19 # 20; 1 # 20]%Q by (vm_compute; reflexivity).
    rewrite on_new_inference_pair. repeat split.
  - intros w o. subst o. unfold emit_new_inference.
    replace (normalize_probs 1%float 0%float) with [0.95; 0.05]%float
      by (vm_compute; reflexivity).
    rewrite on_new_inference_pair. repeat split.
Qed.

(** Handed [1.0, 0.0] itself, the slot stores [1.0, 0.0] and reports a
    confidence of 100.0. *)
Lemma C8_counterexample :
  let o := on_new_inference [1; 0]%float BCIMainWindow_init in
  result o = Ok tt /\
  inference_probs (window o) = [1; 0]%float /\
  inference_probs (window o) <> [0.95; 0.05]%float /\
  shown_class (calls o) = Some 0 /\
  shown_confidence (calls o) = Some 100%float.
Proof. repeat split; vm_compute; congruence. Qed.

(** ** C9 *)

(** C9.  The timer slot writes no attribute of the window: the channel
    buffers, the time axis, the time counter and the stored probability
    vector are after it what they were before it, whether it returns or
    raises; with no session connected or with an empty time axis it
    returns at once, having called no widget. *)
Theorem C9_update_plots_leaves_window_unchanged
  {F : Type} `{Scalar F} `{Numpy F} (w : BCIMainWindow F) :
  window (update_plots w) = w /\
  eeg_buffers (window (update_plots w)) = eeg_buffers w /\
  time_buffer (window (update_plots w)) = time_buffer w /\
  time_counter (window (update_plots w)) = time_counter w /\
  inference_probs (window (update_plots w)) = inference_probs w /\
  (is_connected w = false \/ length (items (time_buffer w)) = 0 ->
   update_plots w = MkOut (Ok tt) w []).
Proof.
  rewrite update_plots_read_only.
  repeat split. apply update_plots_idle.
Qed.

Lemma C9_witness :
  update_plots (F:=Q) BCIMainWindow_init = MkOut (Ok tt) BCIMainWindow_init [].
Proof.
  apply (C9_update_plots_leaves_window_unchanged BCIMainWindow_init).
  left. reflexivity.
Defined.

(** ** C10 *)

(** C10.  A batch with at least eight rows and [L] columns goes into a
    window with its eight buffers without raising: buffer [ch], for [ch]
    from 0 to 7, receives the [L] samples [data[ch, 0] .. data[ch, L-1]] by
    [L] successive appends, [L] being the second dimension of the batch;
    rows 8 and beyond play no part, since a batch that agrees on rows 0 to 7
    has exactly the same effect. *)
Theorem C10_batch_appends_L_samples_to_8_channels
  {F : Type} `{Scalar F} (data : ndarray F) (w : BCIMainWindow F) :
  n_channels w = 8 -> length (eeg_buffers w) = 8 -> 8 <= nrows data ->
  let o := on_new_eeg_data data w in
  result o = Ok tt /\
  length (eeg_buffers (window o)) = 8 /\
  (forall ch d, ch < 8 -> eeg_buffers w !! ch = Some d ->
     eeg_buffers (window o) !! ch
     = Some (deque_extend d (map (item data ch) (range (ncols data)))) /\
     length (map (item data ch) (range (ncols data))) = ncols data) /\
  (forall data' : ndarray F,
     ncols data' = ncols data -> 8 <= nrows data' ->
     (forall ch i, ch < 8 -> i < ncols data -> item data' ch i = item data ch i) ->
     on_new_eeg_data data' w = o).
Proof.
  intros Hn Hlen Hrows o. subst o.
  rewrite on_new_eeg_data_ok by lia. cbn [result window].
  split; [reflexivity|]. split; [|split].
  - unfold ingested, ingested_upto. cbn [eeg_buffers]. rewrite length_imap. exact Hlen.
  - intros ch d Hch Hd. split; [|apply row_length].
    unfold ingested, ingested_upto. cbn [eeg_buffers].
    rewrite list_lookup_imap, Hd, Hn. cbn [fmap option_fmap option_map].
    replace (ch <? 8) with true by (symmetry; apply Nat.ltb_lt; lia). reflexivity.
  - intros data' Hcols Hrows' Hagree.
    rewrite on_new_eeg_data_ok by lia. f_equal.
    unfold ingested, ingested_upto. rewrite Hcols. f_equal.
    apply list_eq. intros ch. rewrite !list_lookup_imap.
    destruct (eeg_buffers w !! ch) as [d|]; [|reflexivity].
    cbn [fmap option_fmap option_map]. rewrite Hn.
    destruct (Nat.ltb_spec ch 8) as [Hch|Hch]; [|reflexivity].
    do 2 f_equal. unfold row. apply map_ext_in. intros i Hi.
    apply in_seq in Hi. apply Hagree; lia.
Qed.

Lemma C10_witness :
  result (on_new_eeg_data (ramp (F:=Q) 9 10) BCIMainWindow_init) = Ok tt.
Proof.
  apply (C10_batch_appends_L_samples_to_8_channels (ramp 9 10) BCIMainWindow_init);
    [reflexivity|reflexivity|cbn; lia].
Defined.

(** * Further properties of the code *)

(** X1.  [on_new_eeg_data] writes the channel buffers, the time axis and
    the time counter and nothing else: whatever the batch, well shaped or
    not, and whether the slot returns or raises, the stored probability
    vector, the connection flag, the thread held and the two sizes are
    after it what they were before it. *)
Theorem X1_on_new_eeg_data_keeps_the_rest
  {F : Type} `{Scalar F} (data : ndarray F) (w : BCIMainWindow F) :
  let w' := window (on_new_eeg_data data w) in
  inference_probs w' = inference_probs w /\
  is_connected w' = is_connected w /\
  data_thread w' = data_thread w /\
  n_channels w' = n_channels w /\
  buffer_size w' = buffer_size w.
Proof.
  cbv zeta. repeat split; apply on_new_eeg_data_keeps; reflexivity.
Qed.

(** X2.  Along any run of events from a fresh window, whatever is
    delivered and whether or not a slot raised on the way: when
    [is_connected] is true the window holds a thread; when it is false the
    thread the window holds, if any, has been stopped, its [running] flag
    cleared by [stop()]; and when no slot raised, [is_connected] is true
    exactly when the button was clicked an odd number of times. *)
Theorem X2_is_connected_follows_the_clicks
  {F : Type} `{Scalar F} `{Numpy F} (es : list (Event F)) :
  let o := run_events es BCIMainWindow_init in
  (is_connected (window o) = true -> exists t, data_thread (window o) = Some t) /\
  (is_connected (window o) = false ->
   forall t, data_thread (window o) = Some t -> running t = false) /\
  (result o = Ok tt -> is_connected (window o) = Nat.odd (clicks es)).
Proof.
  cbv zeta.
  assert (Hl : linked (window (run_events es BCIMainWindow_init))).
  { apply (run_events_kept linked); [intros e w; apply handle_linked|reflexivity]. }
  unfold linked in Hl. split; [|split].
  - intros Hc. rewrite Hc in Hl. destruct (data_thread _) as [t|]; [|discriminate].
    exists t. reflexivity.
  - intros Hc t Ht. rewrite Hc, Ht in Hl. symmetry. exact Hl.
  - intros Hr. rewrite (run_events_clicks es _ Hr). reflexivity.
Qed.

Lemma X2_witness :
  is_connected (window (run_events (F:=Q)
     [Clicked; NewData (ramp 8 10); Clicked; Timeout; Clicked] BCIMainWindow_init)) = true.
Proof.
  destruct (X2_is_connected_follows_the_clicks (F:=Q)
              [Clicked; NewData (ramp 8 10); Clicked; Timeout; Clicked]) as (_ & _ & Hodd).
  rewrite Hodd; [reflexivity|vm_compute; reflexivity].
Defined.

(** X3.  Along any run of events from a fresh window, whatever the shape
    of the batches delivered and whether or not a slot raised on the way,
    the window has its eight channel buffers, the time axis holds at most
    1000 items and no channel buffer holds more than the time axis; and as
    long as no slot raised, the eight channel buffers and the time axis
    have the same length. *)
Theorem X3_capacity_is_never_exceeded
  {F : Type} `{Scalar F} `{Numpy F} (es : list (Event F)) :
  let o := run_events es BCIMainWindow_init in
  within_capacity (window o) /\
  (result o = Ok tt ->
   Forall (fun d => length (items d) = length (items (time_buffer (window o))))
          (eeg_buffers (window o))).
Proof.
  cbv zeta.
  destruct (run_events_level_or_raise es 0 _ filled_init) as [[Hr (n & Hf)]|[(ex & Hr) Hc]].
  - split; [eapply filled_within_capacity; exact Hf|]. intros _.
    destruct Hf as (_ & _ & _ & Ht & Hb).
    eapply Forall_impl; [exact Hb|]. intros d [_ Hd]. lia.
  - split; [exact Hc|]. rewrite Hr. discriminate.
Qed.

Lemma X3_witness :
  Forall (fun d => length (items d) = 10)
    (eeg_buffers (window (run_events (F:=Q)
       [NewData (ramp 8 3); NewData (ramp 2 0); NewData (ramp 12 7)] BCIMainWindow_init))).
Proof.
  destruct (X3_capacity_is_never_exceeded (F:=Q)
              [NewData (ramp 8 3); NewData (ramp 2 0); NewData (ramp 12 7)]) as [_ Heq].
  eapply Forall_impl; [apply Heq; vm_compute; reflexivity|].
  intros d ->. vm_compute. reflexivity.
Defined.

(** X4.  After a run of batches with at least eight rows each, from a
    fresh window, the buffer of channel [ch] holds the samples of that
    channel in the order in which they arrived, the oldest dropped first:
    it holds the last 1000 of them when more than 1000 arrived, and all of
    them otherwise. *)
Theorem X4_channel_buffer_holds_latest_samples
  {F : Type} `{Scalar F} `{Numpy F} (batches : list (ndarray F)) (ch : nat) :
  Forall (fun data => 8 <= nrows data) batches -> ch < 8 ->
  let stream := channel_stream ch batches in
  exists d,
    eeg_buffers (window (run_events (map NewData batches) BCIMainWindow_init)) !! ch = Some d /\
    items d = drop (length stream - 1000) stream.
Proof.
  intros Hb Hch stream.
  rewrite (run_batches_streams batches BCIMainWindow_init ch eq_refl eq_refl Hb Hch).
  assert (Hinit : eeg_buffers (BCIMainWindow_init (F:=F)) !! ch = Some (deque_new 1000)).
  { do 8 (destruct ch as [|ch]; [reflexivity|]). lia. }
  rewrite Hinit. eexists. split; [reflexivity|].
  rewrite deque_extend_items by (cbn; lia). reflexivity.
Qed.

Lemma X4_witness :
  exists d,
    eeg_buffers (window (run_events (F:=Q) (map NewData [ramp 8 600; ramp 9 600])
                                     BCIMainWindow_init)) !! 3 = Some d /\
    items d = drop 200 (channel_stream 3 [ramp 8 600; ramp 9 600]).
Proof.
  apply (X4_channel_buffer_holds_latest_samples (F:=Q) [ramp 8 600; ramp 9 600] 3).
  - repeat constructor; cbn; lia.
  - lia.
Defined.

(** X5.  Handed a vector of fewer than two components, [on_new_inference]
    raises [IndexError]; by then it has already stored the short vector in
    [inference_probs], and it has called no widget. *)
Theorem X5_short_vector_raises_after_storing
  {F : Type} `{Scalar F} (probs : list F) (w : BCIMainWindow F) :
  length probs < 2 ->
  on_new_inference probs w = MkOut (Raise IndexError) (set_inference_probs probs w) [].
Proof.
  intros Hlen. destruct probs as [|p0 [|p1 rest]]; [reflexivity|reflexivity|].
  cbn in Hlen. lia.
Qed.

Lemma X5_witness :
  on_new_inference [1 # 2]%Q BCIMainWindow_init
  = MkOut (Raise IndexError) (set_inference_probs [1 # 2]%Q BCIMainWindow_init) [].
Proof.
  apply (X5_short_vector_raises_after_storing [1 # 2]%Q BCIMainWindow_init). cbn. lia.
Defined.

(** X6.  In exact arithmetic, on a vector of two or more components
    [on_new_inference] returns; the class it shows is decided by the first
    two components alone (class 0 exactly when [probs[0] > probs[1]]); and
    the confidence it shows is 100 times a component that no component of
    the whole vector exceeds. *)
Theorem X6_confidence_is_the_greatest_component
  (p0 p1 : Q) (rest : list Q) (w : BCIMainWindow Q) :
  let probs := p0 :: p1 :: rest in
  let o := on_new_inference probs w in
  result o = Ok tt /\
  shown_class (calls o) = Some (if ltb p1 p0 then 0 else 1) /\
  exists m c : Q,
    In m probs /\ (forall p, In p probs -> (p <= m)%Q) /\
    shown_confidence (calls o) = Some c /\ (c == m * 100)%Q.
Proof.
  cbv zeta. rewrite on_new_inference_calls. cbn [result calls].
  split; [reflexivity|]. split; [destruct (ltb p1 p0); reflexivity|].
  destruct (fold_max_greatest (p1 :: rest) p0) as [Hin Hge].
  eexists _, _. split; [exact Hin|]. split; [exact Hge|]. split.
  - destruct (ltb p1 p0); reflexivity.
  - change (mul ?a (lit 100)) with (Qred (a * 100)). apply Qred_correct.
Qed.

(** X7.  In exact arithmetic, when the source emits the vector made from
    the raw values [left_prob] and [right_prob], the slot shows class 0
    (left hand) exactly when [right_prob < left_prob], [right_prob < 0.95]
    and [0.05 < left_prob]; in every other case, two raw values clipped to
    the same bound included, it shows class 1 (right hand). *)
Theorem X7_label_after_clipping (left_prob right_prob : Q) (w : BCIMainWindow Q) :
  let o := emit_new_inference left_prob right_prob w in
  let left_wins := (right_prob < left_prob /\ right_prob < 19 # 20 /\ 1 # 20 < left_prob)%Q in
  exists c,
    shown_class (calls o) = Some c /\
    (c = 0 <-> left_wins) /\ (c = 1 <-> ~ left_wins).
Proof.
  cbv zeta. unfold emit_new_inference.
  destruct (normalize_probs_shares left_prob right_prob)
    as (a & b & -> & _ & _ & _ & _ & _ & Hord).
  rewrite on_new_inference_class. rewrite clip_unit_order in Hord.
  destruct (ltb b a) eqn:Hba.
  - apply qltb_true in Hba. apply Hord in Hba. exists 0. split; [reflexivity|].
    split; split; try discriminate; try (intros; reflexivity); try (intros; exact Hba).
    intros Hnot. contradiction.
  - apply qltb_false in Hba. exists 1. split; [reflexivity|].
    assert (Hnot : ~ (right_prob < left_prob /\ right_prob < 19 # 20 /\ 1 # 20 < left_prob)%Q).
    { intros Hw. apply Hord in Hw. lra. }
    split; split; try discriminate; try (intros; reflexivity); try (intros; exact Hnot).
    intros Hw. contradiction.
Qed.

Lemma X7_witness :
  shown_class (calls (emit_new_inference 3%Q 2%Q BCIMainWindow_init)) = Some 1.
Proof.
  destruct (X7_label_after_clipping 3%Q 2%Q BCIMainWindow_init) as (c & -> & _ & Hr).
  f_equal. apply Hr. intros (_ & Hlt & _). vm_compute in Hlt. discriminate.
Defined.

(** X8.  In exact arithmetic, whatever the raw values, the confidence the
    slot shows for a vector emitted by the source lies between 50 and
    95. *)
Theorem X8_confidence_between_50_and_95 (left_prob right_prob : Q) (w : BCIMainWindow Q) :
  exists c : Q,
    shown_confidence (calls (emit_new_inference left_prob right_prob w)) = Some c /\
    (50 <= c)%Q /\ (c <= 95)%Q.
Proof.
  unfold emit_new_inference.
  destruct (normalize_probs_shares left_prob right_prob)
    as (a & b & -> & Hsum & Ha1 & Ha2 & Hb1 & Hb2 & _).
  rewrite on_new_inference_pair. cbn [calls].
  eexists. split; [destruct (ltb b a); reflexivity|].
  change (mul ?x (lit 100)) with (Qred (x * 100)). rewrite Qred_correct.
  destruct (ltb a b) eqn:Hab; [apply qltb_true in Hab|apply qltb_false in Hab];
    split; lra.
Qed.

(** X9.  After any number [k] of turns of its loop, whatever was drawn, a
    thread made by [DataSimulatorThread()] and started has counted [k]
    inferences and its current class is [(k // 150) % 2]: class 0 for the
    first 149 turns, and the other class from each 150th turn on. *)
Theorem X9_class_switches_every_150_turns
  {F : Type} `{Scalar F} `{Trig F} (draws : list (Draws F)) :
  let t := fst (run_turns (thread_start DataSimulatorThread_init) draws) in
  inference_counter t = Z.of_nat (length draws) /\
  current_class t = ((Z.of_nat (length draws) / 150) mod 2)%Z.
Proof.
  apply (run_turns_schedule draws (thread_start DataSimulatorThread_init));
    [cbn; lia|reflexivity].
Qed.

(** X10.  A session of the simulator never makes a slot raise: when the
    window is connected and then receives what any number of turns of the
    thread emit, in the order of emission and whatever was drawn, every
    event is a batch of 8 rows by 10 columns or a vector of two components,
    every slot returns, the window is still connected, and the time axis
    and each of the eight channel buffers hold ten samples a turn, up to
    1000. *)
Theorem X10_simulator_session_fills_the_buffers
  {F : Type} `{Scalar F} `{Numpy F} `{Trig F} (draws : list (Draws F)) :
  let es := snd (run_turns (thread_start DataSimulatorThread_init) draws) in
  let o := run_events (Clicked :: es) BCIMainWindow_init in
  Forall emitted es /\
  result o = Ok tt /\
  is_connected (window o) = true /\
  length (eeg_buffers (window o)) = 8 /\
  length (items (time_buffer (window o))) = Nat.min 1000 (10 * length draws) /\
  Forall (fun d => length (items d) = Nat.min 1000 (10 * length draws))
         (eeg_buffers (window o)).
Proof.
  cbv zeta.
  destruct (run_turns_emitted draws (thread_start DataSimulatorThread_init) eq_refl)
    as [Hem Hs].
  set (es := snd (run_turns (thread_start DataSimulatorThread_init) draws)) in *.
  pose proof (session_returns es 0 _ filled_init Hem) as Hok.
  split; [exact Hem|]. split; [exact Hok|]. split.
  - assert (Hcl : clicks (Clicked :: es) = 1).
    { pose proof (emitted_clicks es Hem) as Hc. unfold clicks in *.
      cbn [filter list_filter]. destruct (decide _) as [Hd|Hd]; [|congruence].
      cbn [length]. f_equal. exact Hc. }
    rewrite (run_events_clicks _ _ Hok), Hcl. reflexivity.
  - destruct (run_events_filled (Clicked :: es) 0 BCIMainWindow_init filled_init)
      as (m & _ & Hm & Hf); [exact (session_batch_shaped es Hem)|].
    rewrite (Hm Hok) in Hf. unfold samples_delivered in Hf, Hs.
    cbn [foldr samples_of] in Hf. rewrite Hs in Hf. cbn [Nat.add] in Hf.
    destruct Hf as (_ & Hlen & _ & Ht & Hb). split; [exact Hlen|]. split; [exact Ht|].
    eapply Forall_impl; [exact Hb|]. intros d [_ Hd]. exact Hd.
Qed.

(** X11.  On a live tick after [n] samples went in (in whole batches, the
    window connected, [n > 0], every vector delivered of two components,
    so that the curves and the bar graph are handed what they were built
    for) the packet label is set to [int(time_counter * 250 / 10)], the
    counter being 0 advanced [n] times by [1/250] in the arithmetic of the
    program.  In exact arithmetic that is [n // 10].  In binary64 it is
    [n // 10] or one less, for every [n] up to 100000: the counter can
    fall just short of a multiple of ten periods, and after 1010 samples
    the label shows 100. *)
Theorem X11_packet_label_truncates_the_counter :
  (forall (F : Type) (Sc : Scalar F) (Np : Numpy F) (es : list (Event F)),
     Forall batch_shaped es ->
     let o := run_events es BCIMainWindow_init in
     let n := samples_delivered es in
     Forall (fun probs => length probs = 2) (vectors_delivered es) ->
     result o = Ok tt -> is_connected (window o) = true -> 0 < n ->
     forall count, packet_count (advance (lit 0) n) = Ok count ->
       shown_packets (calls (update_plots (window o))) = Some count) /\
  (forall n : nat, packet_count (F:=Q) (advance (lit 0) n) = Ok (Z.of_nat n / 10)%Z) /\
  packet_count (F:=float) (advance (lit 0) 1010) = Ok 100%Z /\
  (forall n, n <= 100 * 1000 ->
     exists count, packet_count (F:=float) (advance (lit 0) n) = Ok count /\
       (count = Z.of_nat n / 10 \/ count = Z.of_nat n / 10 - 1)%Z).
Proof.
  split; [|split; [|split]].
  - intros F Sc Np es Hes o n _ Hok Hc Hpos count Hcount.
    destruct (run_events_clocked es 0 BCIMainWindow_init clocked_init Hes)
      as (m & _ & Hm & Ht).
    fold o in Hm, Ht. rewrite (Hm Hok) in Ht. cbn [Nat.add] in Ht. fold n in Ht.
    destruct Ht as ((Hn & Hlen & _ & Hl & _) & Hcounter & _).
    apply update_plots_packet_count; [exact Hc| |lia|lia|].
    + intros Hnil. rewrite Hnil in Hl. cbn [length] in Hl. lia.
    + rewrite Hcounter. exact Hcount.
  - intros n. rewrite advance_exact. apply packets_of_stamp.
  - vm_compute. reflexivity.
  - intros n Hn.
    assert (Hall : holds_along (fun t : float => add t period)
              (fun z t => match packet_count t with
                          | Ok count => (count =? z / 10)%Z || (count =? z / 10 - 1)%Z
                          | Raise _ => false
                          end)
              0 (lit 0) (100 * 1000) = true) by (vm_compute; reflexivity).
    pose proof (holds_along_spec _ _ _ _ _ Hall n Hn) as Hp. cbn beta in Hp.
    change (Nat.iter n (fun t : float => add t period) (lit 0))
      with (advance (F:=float) (lit 0) n) in Hp.
    destruct (packet_count (advance (F:=float) (lit 0) n)) as [count|ex]; [|discriminate].
    exists count. split; [reflexivity|].
    apply orb_prop in Hp. rewrite !Z.eqb_eq in Hp. exact Hp.
Qed.

Lemma X11_witness :
  shown_packets (calls (update_plots (window
    (run_events (F:=float)
       [Clicked; NewData (ramp 8 10); NewInference [lit (7 # 10); lit (3 # 10)];
        NewData (ramp 8 15)]
       BCIMainWindow_init))))
  = Some 2%Z.
Proof.
  destruct X11_packet_label_truncates_the_counter as (Hgen & _).
  apply (Hgen float _ _
           [Clicked; NewData (ramp 8 10); NewInference [lit (7 # 10); lit (3 # 10)];
            NewData (ramp 8 15)]).
  - repeat constructor; cbn; lia.
  - repeat constructor.
  - vm_compute. reflexivity.
  - vm_compute. reflexivity.
  - cbn. lia.
  - vm_compute. reflexivity.
Defined.

(** X12.  On a live tick after [n] samples went in (in whole batches, the
    window connected, [n > 0]), the slot hands data to the eight channel
    curves, once each and in the order of the channels: to the curve of
    channel [ch] the time axis as x and the buffer of channel [ch] as y,
    two lists of the same length, [min 1000 n]. *)
Theorem X12_live_tick_plots_each_channel_against_the_time_axis
  {F : Type} `{Scalar F} `{Numpy F} (es : list (Event F)) :
  Forall batch_shaped es ->
  let o := run_events es BCIMainWindow_init in
  let n := samples_delivered es in
  result o = Ok tt -> is_connected (window o) = true -> 0 < n ->
  curve_calls (calls (update_plots (window o)))
  = imap (fun ch d => (ch, (items (time_buffer (window o)), items d)))
         (eeg_buffers (window o)) /\
  length (eeg_buffers (window o)) = 8 /\
  length (items (time_buffer (window o))) = Nat.min 1000 n /\
  Forall (fun d => length (items d) = Nat.min 1000 n) (eeg_buffers (window o)).
Proof.
  intros Hes o n Hok Hc Hpos.
  destruct (run_events_filled es 0 BCIMainWindow_init filled_init Hes) as (m & _ & Hm & Hf).
  fold o in Hm, Hf. rewrite (Hm Hok) in Hf. cbn [Nat.add] in Hf. fold n in Hf.
  destruct Hf as (Hn & Hlen & _ & Hl & Hb).
  split; [|split; [exact Hlen|split; [exact Hl|]]].
  - apply update_plots_curves; [exact Hc| |lia|lia].
    intros Hnil. rewrite Hnil in Hl. cbn [length] in Hl. lia.
  - eapply Forall_impl; [exact Hb|]. intros d [_ Hd]. exact Hd.
Qed.

Lemma X12_witness :
  length (curve_calls (calls (update_plots (window
    (run_events (F:=Q) [Clicked; NewData (ramp 8 3)] BCIMainWindow_init))))) = 8.
Proof.
  destruct (X12_live_tick_plots_each_channel_against_the_time_axis (F:=Q)
              [Clicked; NewData (ramp 8 3)]) as (-> & Hlen & _).
  - repeat constructor; cbn; lia.
  - vm_compute. reflexivity.
  - vm_compute. reflexivity.
  - cbn. lia.
  - rewrite length_imap. exact Hlen.
Defined.

(** X13.  What makes the slots raise, in any arithmetic.  From a fresh
    window, a run of clicks, batches and vectors returns exactly when
    every batch has at least eight rows or no sample at all and every
    vector has at least two components; any other run stops at its first
    batch or vector that is not so, with [IndexError]. *)
Theorem X13_slots_raise_only_on_short_batch_or_vector
  {F : Type} `{Scalar F} `{Numpy F} (es : list (Event F)) :
  Forall (fun e => e <> Timeout) es ->
  let o := run_events es BCIMainWindow_init in
  (result o = Ok tt <-> Forall accepted es) /\
  (result o = Ok tt \/ result o = Raise IndexError).
Proof.
  intros Hes. exact (run_events_accepted es 0 _ filled_init Hes).
Qed.

Lemma X13_witness :
  result (run_events (F:=Q)
    [Clicked; NewData (ramp 9 4); NewData (ramp 3 0); NewInference [3; 1; 2]%Q; Clicked]
    BCIMainWindow_init) = Ok tt.
Proof.
  apply (X13_slots_raise_only_on_short_batch_or_vector (F:=Q)
    [Clicked; NewData (ramp 9 4); NewData (ramp 3 0); NewInference [3; 1; 2]%Q; Clicked]).
  - repeat constructor; discriminate.
  - repeat constructor; cbn; lia.
Defined.

(** X14.  The ten instants at which a turn of the loop evaluates its sine
    waves.  In any arithmetic there are ten of them and the last is the
    clock the thread has when the turn is over: [np.linspace] includes
    both ends.  In exact arithmetic the instants of turn [k] (from 0) are
    [k/25 + i/225] seconds for [i] from 0 to 9, nine steps of 1/225 s, and
    the first instant of a turn is the last instant of the turn before.
    In binary64, for each of the first 10000 turns, the first instant is
    the clock of the thread, every instant lies within [1e-9] of that grid
    and more than [1/250] after the instant before it; the grid is not met
    exactly (instant 3 of turn 0 is 0.013333333333333332). *)
Theorem X14_batch_instants_include_both_ends :
  (forall (F : Type) (Sc : Scalar F) (t : DataSimulatorThread F),
     length (run_instants t) = 10 /\
     last (run_instants t) = Some (time (run_advance_time t))) /\
  (forall (Tr : Trig Q) (draws : list (Draws Q)),
     let t := fst (run_turns (thread_start DataSimulatorThread_init) draws) in
     let k := inject_Z (Z.of_nat (length draws)) in
     Forall2 Qeq (run_instants t)
       (map (fun i => k / 25 + inject_Z (Z.of_nat i) / 225)%Q (seq 0 10)) /\
     head (run_instants (run_advance_time t)) = Some (time (run_advance_time t))) /\
  (forall (Tr : Trig float) (draws : list (Draws float)),
     length draws <= 10 * 1000 ->
     let t := fst (run_turns (thread_start DataSimulatorThread_init) draws) in
     starts_at (time t) (run_instants t) = true /\
     on_grid (Z.of_nat (length draws)) (run_instants t) = true /\
     wider_than_period (run_instants t) = true) /\
  (run_instants (F:=float) (thread_start DataSimulatorThread_init) !! 3
     = Some 0.013333333333333332%float /\
   lit (F:=float) (3 # 225) = 0.013333333333333334%float).
Proof.
  split; [|split; [|split]].
  - intros F Sc t. apply run_instants_ends.
  - intros Tr draws. cbv zeta.
    pose proof (run_turns_time draws (thread_start DataSimulatorThread_init) 0
                  eq_refl stamp_0) as Ht.
    pose proof (run_turns_rate draws (thread_start DataSimulatorThread_init)) as Hr.
    cbn [Nat.add thread_start sample_rate] in Ht, Hr.
    set (t := fst (run_turns (thread_start DataSimulatorThread_init) draws)) in *.
    split.
    + pose proof (run_instants_grid t _ Hr Ht) as Hg.
      assert (Hmap : Forall2 Qeq
                (map (fun i => inject_Z (Z.of_nat (10 * length draws)) / 250
                               + inject_Z (Z.of_nat i) / 225)%Q (seq 0 10))
                (map (fun i => inject_Z (Z.of_nat (length draws)) / 25
                               + inject_Z (Z.of_nat i) / 225)%Q (seq 0 10))).
      { apply Forall2_fmap, Forall_Forall2_diag, Forall_forall. intros i _.
        rewrite Nat2Z.inj_mul, inject_Z_mult. change (inject_Z (Z.of_nat 10)) with 10%Q.
        field. }
      revert Hg Hmap. generalize (run_instants t). intros l.
      generalize (map (fun i => inject_Z (Z.of_nat (10 * length draws)) / 250
                                + inject_Z (Z.of_nat i) / 225)%Q (seq 0 10)).
      generalize (map (fun i => inject_Z (Z.of_nat (length draws)) / 25
                                + inject_Z (Z.of_nat i) / 225)%Q (seq 0 10)).
      intros l2 l1 H1. revert l2. induction H1 as [|x y l l1 Hxy _ IH]; intros l2 H2.
      * inversion H2. constructor.
      * inversion H2 as [|y' z l1' l2' Hyz H2']; subst.
        constructor; [rewrite Hxy; exact Hyz|apply IH; exact H2'].
    + unfold run_instants at 1. unfold np_linspace, batch_size.
      cbn [Nat.ltb Nat.leb Nat.sub seq map].
      assert (Hr' : sample_rate (run_advance_time t) = 250%Z) by exact Hr.
      rewrite (batch_span_250 _ Hr'). cbn [time run_advance_time].
      rewrite (batch_span_250 _ Hr), Ht, stamp_batch.
      set (s := stamp (10 * length draws + 10)).
      match goal with |- context [if ?c then _ else _] => destruct c end;
        cbn [map take app head]; f_equal; unfold sub, lit_nat;
        cbn [add mul div lit Q_scalar];
        unfold ExactScalar.qadd, ExactScalar.qmul, ExactScalar.qdiv, ExactScalar.qlit;
        subst s; unfold stamp; apply Qred_complete; rewrite !Qred_correct;
        cbn [Z.of_nat Pos.of_succ_nat Pos.succ]; field.
  - intros Tr draws Hk. cbv zeta.
    destruct (session_thread draws) as [-> ->].
    assert (Hall : holds_along
              (fun c : float => add c (div (lit_nat batch_size) (lit (inject_Z 250))))
              (fun z c =>
                 let l := np_linspace c
                            (add c (div (lit_nat batch_size) (lit (inject_Z 250))))
                            batch_size in
                 starts_at c l && (on_grid z l && wider_than_period l))
              0 (lit 0) (10 * 1000) = true) by (vm_compute; reflexivity).
    pose proof (holds_along_spec _ _ _ _ _ Hall (length draws) Hk) as Hp.
    cbn beta zeta in Hp. fold (thread_clock (F:=float) (length draws)) in Hp.
    apply andb_prop in Hp as [H1 Hp]. apply andb_prop in Hp as [H2 H3].
    split; [exact H1|]. split; [exact H2|exact H3].
  - split; vm_compute; reflexivity.
Qed.

(** X15.  The two clocks.  In any arithmetic, when the window is connected
    and then receives what [k] turns of the thread emit, the [time] of the
    thread is 0 advanced [k] times by [batch_size / sample_rate] and the
    [time_counter] of the window is 0 advanced [10 k] times by [1 / 250].
    In exact arithmetic the two are the same number.  In binary64 they are
    not: after three turns the thread stands at 0.12 and the window at
    0.12000000000000008; over the first 10000 turns they stay within
    [1e-9] of each other. *)
Theorem X15_thread_clock_and_window_clock :
  (forall (F : Type) (Sc : Scalar F) (Np : Numpy F) (Tr : Trig F)
          (draws : list (Draws F)),
     let session := run_turns (thread_start DataSimulatorThread_init) draws in
     let o := run_events (Clicked :: snd session) BCIMainWindow_init in
     time (fst session) = thread_clock (length draws) /\
     time_counter (window o) = advance (lit 0) (10 * length draws)) /\
  (forall k : nat, thread_clock (F:=Q) k = advance (lit 0) (10 * k)) /\
  (thread_clock (F:=float) 3 = 0.12%float /\
   advance (F:=float) (lit 0) 30 = 0.12000000000000008%float /\
   ltb (thread_clock (F:=float) 3) (advance (lit 0) 30) = true) /\
  (forall k, k <= 10 * 1000 ->
     near (lit (1 # 1000000000)) (thread_clock (F:=float) k) (advance (lit 0) (10 * k))
     = true).
Proof.
  split; [|split; [|split]].
  - intros F Sc Np Tr draws. cbv zeta.
    destruct (session_thread draws) as [Hclock _]. split; [exact Hclock|].
    destruct (run_turns_emitted draws (thread_start DataSimulatorThread_init) eq_refl)
      as [Hem Hs].
    set (session := run_turns (thread_start DataSimulatorThread_init) draws) in *.
    pose proof (session_returns (snd session) 0 _ filled_init Hem) as Hok.
    destruct (run_events_clocked (Clicked :: snd session) 0 BCIMainWindow_init clocked_init
                (session_batch_shaped _ Hem)) as (m & _ & Hm & _ & Hc & _).
    rewrite (Hm Hok) in Hc. unfold samples_delivered in Hc, Hs.
    cbn [foldr samples_of] in Hc. rewrite Hs in Hc. exact Hc.
  - intros k. rewrite advance_exact. induction k as [|k IH]; [apply stamp_0|].
    unfold thread_clock in *. cbn [Nat.iter nat_rect]. unfold Nat.iter in IH. rewrite IH.
    change (div (lit_nat batch_size) (lit (inject_Z 250))) with (1 # 25)%Q.
    rewrite stamp_batch. f_equal. lia.
  - repeat split; vm_compute; reflexivity.
  - intros k Hk.
    assert (Hall : holds_along
              (fun cw : float * float =>
                 (add (fst cw) (div (lit_nat batch_size) (lit (inject_Z 250))),
                  advance (snd cw) 10))
              (fun _ cw => near (lit (1 # 1000000000)) (fst cw) (snd cw))
              0 (lit 0, lit 0) (10 * 1000) = true) by (vm_compute; reflexivity).
    pose proof (holds_along_spec _ _ _ _ _ Hall k Hk) as Hp. cbn beta in Hp.
    rewrite clock_pair in Hp. exact Hp.
Qed.

(** X16.  On a live tick the bar graph is handed the vector last
    delivered on [new_inference], as it was delivered and whatever its
    length and values, and [0.5, 0.5] when none was delivered yet. *)
Theorem X16_bars_show_the_vector_last_delivered
  {F : Type} `{Scalar F} `{Numpy F} (es : list (Event F)) :
  Forall batch_shaped es ->
  let o := run_events es BCIMainWindow_init in
  result o = Ok tt -> is_connected (window o) = true -> 0 < samples_delivered es ->
  bar_heights (calls (update_plots (window o)))
  = Some (default [lit (1 # 2); lit (1 # 2)] (last (vectors_delivered es))).
Proof.
  intros Hes o Hok Hc Hpos.
  destruct (run_events_filled es 0 BCIMainWindow_init filled_init Hes) as (m & _ & Hm & Hf).
  fold o in Hm, Hf. rewrite (Hm Hok) in Hf. cbn [Nat.add] in Hf.
  destruct Hf as (Hn & Hlen & _ & Hl & _).
  rewrite update_plots_bars; [|exact Hc| |lia|lia].
  - unfold o. rewrite (run_events_inference_probs es _ Hok). reflexivity.
  - intros Hnil. rewrite Hnil in Hl. cbn [length] in Hl. lia.
Qed.

Lemma X16_witness :
  bar_heights (calls (update_plots (window (run_events (F:=Q)
    [Clicked; NewInference [1; 0]%Q; NewData (ramp 8 2); NewInference [3; 4; 5]%Q]
    BCIMainWindow_init))))
  = Some [3; 4; 5]%Q.
Proof.
  apply (X16_bars_show_the_vector_last_delivered (F:=Q)
    [Clicked; NewInference [1; 0]%Q; NewData (ramp 8 2); NewInference [3; 4; 5]%Q]).
  - repeat constructor; cbn; lia.
  - vm_compute. reflexivity.
  - vm_compute. reflexivity.
  - cbn. lia.
Defined.
